(** * Task store service (server.js): a shallow embedding and its properties

    The service keeps two module-level variables, [tasks] (an array of task
    objects) and [nextId] (a Number), and five Express handlers that read and
    mutate them.  Each handler runs to completion, so it is embedded as a
    function from the request and the state before to the response and the
    state after.  What a handler reads from outside the store is an argument
    of its embedding: the path parameter [req.params.id], the three fields it
    destructures from [req.body], and the clock read by
    [new Date().toISOString()].

    Express itself (routing, [express.json()], [res.json]) and the built-in
    [parseInt] are not part of server.js.  [parseInt] decides what the
    handlers do with a path parameter, so it is embedded here from
    ECMA-262. *)

From Stdlib Require Import ZArith Lia Bool.
From Stdlib Require Import Floats.SpecFloat.
From stdpp Require Import base tactics option list strings sorting.

Local Open Scope string_scope.
Local Open Scope list_scope.
Local Open Scope Z_scope.

(** ** JavaScript values *)

(** A string handed to [parseInt] is a sequence of UTF-16 code units. *)
Definition jsstring := list N.

(** The code units of an ASCII literal. *)
Definition str (s : string) : jsstring :=
  List.map Ascii.N_of_ascii (String.list_ascii_of_string s).

(** What [express.json()] can put in a field of [req.body]: a parsed JSON
    value.  Numbers are IEEE-754 doubles. *)
#[warnings="-register-all"]
Inductive json : Type :=
  | JNull
  | JBool (b : bool)
  | JNum (x : spec_float)
  | JStr (s : string)
  | JArr (items : list json)
  | JObj (fields : list (string * json)).

(** A destructured field of the body: [None] is [undefined] (the key is not
    there; JSON has no way to write [undefined]). *)
Definition field := option json.

(** ToBoolean on a JSON value: [null], [false], [0], [-0], [NaN] and the empty
    string are falsy, everything else (every array and object too) is
    truthy. *)
Definition truthy (v : json) : bool :=
  match v with
  | JNull => false
  | JBool b => b
  | JNum (S754_zero _) => false
  | JNum S754_nan => false
  | JNum _ => true
  | JStr s => negb (String.eqb s EmptyString)
  | JArr _ => true
  | JObj _ => true
  end.

(** ToBoolean on a destructured field; [undefined] is falsy. *)
Definition field_truthy (f : field) : bool :=
  match f with
  | Some v => truthy v
  | None => false
  end.

(** [f || dflt] *)
Definition js_or (f : field) (dflt : json) : json :=
  match f with
  | Some v => if truthy v then v else dflt
  | None => dflt
  end.

(** ** Numbers

    Ids and [nextId] are integer-valued doubles; they are carried as the
    integer they denote.  [round_double] is the rounding of an integer to the
    nearest double (53 bits of precision, ties to even); every integer of
    magnitude at most 2^53 is its own rounding. *)
Definition round_double (n : Z) : Z :=
  let a := Z.abs n in
  let e := Z.log2 a - 52 in
  if e <=? 0 then n
  else
    let q := Z.shiftr a e in
    let r := Z.land a (Z.ones e) in
    let half := Z.shiftl 1 (e - 1) in
    let q' := if (half <? r) || ((r =? half) && Z.odd q) then q + 1 else q in
    Z.sgn n * Z.shiftl q' e.

(** The value [nextId] has after [nextId++]: the double nearest to
    [nextId + 1]. *)
Definition js_incr (n : Z) : Z := round_double (n + 1).

(** The largest integer up to which [++] still counts. *)
Definition max_counter : Z := 2 ^ 53.

(** The result of [parseInt]: [NaN], an infinity, or a finite integer-valued
    double ([-0] and [+0] are both [JFin 0]; [===] does not tell them
    apart). *)
Inductive jsnum : Type :=
  | JNaN
  | JInf (negative : bool)
  | JFin (z : Z).

(** An integer as a Number: rounded, and infinite from 2^1024 on. *)
Definition to_number (n : Z) : jsnum :=
  let r := round_double n in
  if 2 ^ 1024 <=? Z.abs r then JInf (r <? 0) else JFin r.

(** [a === b] for a stored id [a] and a parsed id [b]: [NaN] equals
    nothing. *)
Definition strict_eq (a : Z) (b : jsnum) : bool :=
  match b with
  | JFin z => a =? z
  | _ => false
  end.

(** ** parseInt (ECMA-262, 19.2.5), called with one argument

    Leading white space is skipped, then an optional sign, then an optional
    hexadecimal prefix; the longest run of digits that follows is the number,
    and whatever comes after it is ignored.  No digit at all gives [NaN].  The
    digits are read exactly, as V8 does. *)

(** WhiteSpace and LineTerminator code units. *)
Definition is_white_space (c : N) : bool :=
  let c := Z.of_N c in
  (9 <=? c) && (c <=? 13)
  || (c =? 32) || (c =? 160) || (c =? 5760)
  || (8192 <=? c) && (c <=? 8202)
  || (c =? 8232) || (c =? 8233) || (c =? 8239) || (c =? 8287)
  || (c =? 12288) || (c =? 65279).

Fixpoint trim_start (s : jsstring) : jsstring :=
  match s with
  | c :: rest => if is_white_space c then trim_start rest else s
  | [] => []
  end.

(** The value of a code unit as a digit of the given radix, if it is one. *)
Definition digit_value (radix : Z) (c : N) : option Z :=
  let c := Z.of_N c in
  let v := if (48 <=? c) && (c <=? 57) then c - 48
           else if (97 <=? c) && (c <=? 122) then c - 87
           else if (65 <=? c) && (c <=? 90) then c - 55
           else radix in
  if v <? radix then Some v else None.

(** The longest prefix of radix digits. *)
Fixpoint leading_digits (radix : Z) (s : jsstring) : list Z :=
  match s with
  | c :: rest =>
      match digit_value radix c with
      | Some d => d :: leading_digits radix rest
      | None => []
      end
  | [] => []
  end.

Definition digits_value (radix : Z) (ds : list Z) : Z :=
  fold_left (fun acc d => acc * radix + d) ds 0.

(** A leading [-] or [+]. *)
Definition strip_sign (s : jsstring) : bool * jsstring :=
  match s with
  | c :: rest =>
      if N.eqb c 45 then (true, rest)
      else if N.eqb c 43 then (false, rest)
      else (false, s)
  | [] => (false, [])
  end.

(** A leading [0x] or [0X] selects radix 16, otherwise the radix is 10. *)
Definition strip_radix (s : jsstring) : Z * jsstring :=
  match s with
  | c0 :: c1 :: rest =>
      if N.eqb c0 48 && (N.eqb c1 120 || N.eqb c1 88) then (16, rest)
      else (10, s)
  | _ => (10, s)
  end.

Definition parseInt (input : jsstring) : jsnum :=
  let '(negative, s) := strip_sign (trim_start input) in
  let '(radix, s) := strip_radix s in
  match leading_digits radix s with
  | [] => JNaN
  | ds =>
      let m := digits_value radix ds in
      to_number (if negative then - m else m)
  end.

(** [req.params.id]; [parseInt(undefined)] reads the string ["undefined"]. *)
Definition param := option jsstring.

Definition parseInt_param (p : param) : jsnum :=
  match p with
  | Some s => parseInt s
  | None => parseInt (str "undefined")
  end.

(** ** The store *)

(** A task object.  [updatedAt] is [None] while the object has no such
    property.  [title], [description] and [completed] hold whatever JSON value
    the requests put there. *)
Record task : Type := {
  id : Z;
  title : json;
  description : json;
  completed : json;
  createdAt : string;
  updatedAt : option string
}.

(** The module-level variables [tasks] and [nextId]. *)
Record state : Type := {
  tasks : list task;
  nextId : Z
}.

(** Lines 14-17; [boot] is the clock when the module is loaded. *)
Definition initial (boot : string) : state :=
  {| tasks := [ {| id := 1;
                   title := JStr "Tarefa Exemplo";
                   description := JStr "Primeira tarefa";
                   completed := JBool false;
                   createdAt := boot;
                   updatedAt := None |} ];
     nextId := 2 |}.

(** ** Requests and responses *)

(** [const { title, description, completed } = req.body] *)
Record body : Type := {
  body_title : field;
  body_description : field;
  body_completed : field
}.

Inductive payload : Type :=
  | NoData
  | OneTask (t : task)
  | AllTasks (l : list task).

(** The status and the JSON envelope sent by [res.status(..).json(..)]; a key
    the handler does not write is [None] (or [NoData]). *)
Record response : Type := {
  status : Z;
  success : bool;
  message : option string;
  data : payload;
  total : option nat
}.

Definition quote : string := String (Ascii.ascii_of_nat 34) EmptyString.

Definition msg_title_required : string :=
  "O campo " +:+ quote +:+ "title" +:+ quote +:+ " é obrigatório".
Definition msg_not_found : string := "Tarefa não encontrada".
Definition msg_created : string := "Tarefa criada com sucesso".
Definition msg_updated : string := "Tarefa atualizada com sucesso".
Definition msg_deleted : string := "Tarefa deletada com sucesso".

Definition failure (code : Z) (msg : string) : response :=
  {| status := code; success := false; message := Some msg;
     data := NoData; total := None |}.

Definition ok_task (code : Z) (msg : option string) (t : task) : response :=
  {| status := code; success := true; message := msg;
     data := OneTask t; total := None |}.

(** ** Array lookups *)

(** [t => t.id === id] *)
Definition has_id (n : jsnum) (t : task) : Prop := strict_eq (id t) n = true.

#[global] Instance has_id_dec n t : Decision (has_id n t).
Proof. unfold has_id. apply _. Defined.

(** [tasks.find(t => t.id === id)]; [None] is [undefined]. *)
Definition find (n : jsnum) (l : list task) : option task :=
  snd <$> list_find (has_id n) l.

(** [tasks.findIndex(t => t.id === id)] together with the element
    [tasks[taskIndex]] at the index found; [None] is [-1]. *)
Definition findIndex (n : jsnum) (l : list task) : option (nat * task) :=
  list_find (has_id n) l.

(** ** The handlers *)

(** POST /api/tasks (lines 150-175).  [!title] holds when [title] is
    [undefined] or a falsy value. *)
Definition create (now : string) (b : body) (s : state) : response * state :=
  let rejected := (failure 400 msg_title_required, s) in
  match body_title b with
  | None => rejected
  | Some title_value =>
      if negb (truthy title_value) then rejected
      else
        let newTask :=
          {| id := nextId s;
             title := title_value;
             description := js_or (body_description b) (JStr EmptyString);
             completed := js_or (body_completed b) (JBool false);
             createdAt := now;
             updatedAt := None |} in
        (ok_task 201 (Some msg_created) newTask,
         {| tasks := tasks s ++ [newTask]; nextId := js_incr (nextId s) |})
  end.

(** GET /api/tasks (lines 178-184) *)
Definition list_all (s : state) : response * state :=
  ({| status := 200; success := true; message := None;
      data := AllTasks (tasks s); total := Some (length (tasks s)) |}, s).

(** GET /api/tasks/:id (lines 187-202) *)
Definition get_by_id (p : param) (s : state) : response * state :=
  match find (parseInt_param p) (tasks s) with
  | None => (failure 404 msg_not_found, s)
  | Some t => (ok_task 200 None t, s)
  end.

(** [{ ...t, ...(title !== undefined && { title }), ..., updatedAt: now }] *)
Definition merge (now : string) (b : body) (t : task) : task :=
  {| id := id t;
     title := default (title t) (body_title b);
     description := default (description t) (body_description b);
     completed := default (completed t) (body_completed b);
     createdAt := createdAt t;
     updatedAt := Some now |}.

(** PUT /api/tasks/:id (lines 205-231) *)
Definition update (now : string) (p : param) (b : body) (s : state)
  : response * state :=
  match findIndex (parseInt_param p) (tasks s) with
  | None => (failure 404 msg_not_found, s)
  | Some (taskIndex, old) =>
      let updated := merge now b old in
      (ok_task 200 (Some msg_updated) updated,
       {| tasks := <[taskIndex := updated]> (tasks s); nextId := nextId s |})
  end.

(** DELETE /api/tasks/:id (lines 234-252); [tasks.splice(taskIndex, 1)[0]]
    takes the element at [taskIndex] out of the array and returns it. *)
Definition delete_task (p : param) (s : state) : response * state :=
  match findIndex (parseInt_param p) (tasks s) with
  | None => (failure 404 msg_not_found, s)
  | Some (taskIndex, deletedTask) =>
      (ok_task 200 (Some msg_deleted) deletedTask,
       {| tasks := delete taskIndex (tasks s); nextId := nextId s |})
  end.

(** ** Runs of the service

    The event loop runs one handler at a time.  A request names the handler
    and carries what the handler reads: the clock, the path parameter and the
    body. *)
Inductive request : Type :=
  | Create (now : string) (b : body)
  | ListAll
  | GetById (p : param)
  | Update (now : string) (p : param) (b : body)
  | Delete (p : param).

Definition handle (r : request) (s : state) : response * state :=
  match r with
  | Create now b => create now b s
  | ListAll => list_all s
  | GetById p => get_by_id p s
  | Update now p b => update now p b s
  | Delete p => delete_task p s
  end.

(** The state after a sequence of requests, served in order. *)
Definition run (rs : list request) (s : state) : state :=
  fold_left (fun st r => snd (handle r st)) rs s.

(** The ids of the stored tasks, in array order. *)
Definition ids (s : state) : list Z := id <$> tasks s.

(** What must never change in a task once it is created. *)
Definition identity (t : task) : Z * string := (id t, createdAt t).

(** The decimal digits of a non-negative integer, most significant first;
    [fuel] bounds their number. *)
Fixpoint decimal_digits (fuel : nat) (n : Z) (acc : list Z) : list Z :=
  match fuel with
  | O => acc
  | S fuel' =>
      if n <? 10 then n :: acc
      else decimal_digits fuel' (n / 10) (n mod 10 :: acc)
  end.

(** The character of a decimal digit. *)
Definition digit_char (d : Z) : N := Z.to_N (48 + d).

(** An id as it is printed in a response ([JSON.stringify] of an integer below
    10^21) and as a client writes it in the path of the next request. *)
Definition decimal (n : Z) : jsstring :=
  digit_char <$> decimal_digits (S (Z.to_nat (Z.log2 n))) n [].

Definition only_title (v : json) : body :=
  {| body_title := Some v; body_description := None; body_completed := None |}.

(** One create followed by the delete of the task just created; [k] is the
    value of [nextId] before the pair, hence the id of that task. *)
Definition create_then_delete (k : Z) : list request :=
  [Create "2024-05-01T10:00:00.000Z" (only_title (JStr "x"));
   Delete (Some (decimal k))].

(** Delete the seeded task, then create and delete a task [n] times over.
    The array never holds more than one task on the way. *)
Definition cycles (n : Z) : list request :=
  Delete (Some (str "1")) :: (seqZ 2 n ≫= create_then_delete).

(** The run that takes [nextId] from 2 to 2^53. *)

Definition saturating_requests : list request := cycles (max_counter - 2).

(** ** Invariant of the store *)

(** The counter stays between 2 and 2^53, and while it is below 2^53 the ids
    in the array are distinct, positive and below it. *)
Definition counter_bounds (s : state) : Prop :=
  2 <= nextId s <= max_counter.

Definition ids_fresh (s : state) : Prop :=
  NoDup (ids s) /\ Forall (fun i => 0 < i < nextId s) (ids s).

Definition store_inv (s : state) : Prop :=
  counter_bounds s /\ (nextId s < max_counter -> ids_fresh s).

(** ** Sample requests and stores *)

Definition milk : body :=
  {| body_title := Some (JStr "Buy milk");
     body_description := Some (JStr "two litres");
     body_completed := Some (JBool true) |}.

(** The seeded task and task 4, with [nextId] at 6. *)
Definition sample_store : state :=
  run [Create "2024-05-01T09:10:00.000Z" (only_title (JStr "a"));
       Create "2024-05-01T09:20:00.000Z" (only_title (JStr "b"));
       Create "2024-05-01T09:30:00.000Z" milk;
       Create "2024-05-01T09:40:00.000Z" (only_title (JStr "c"));
       Delete (Some (str "2")); Delete (Some (str "3"));
       Delete (Some (str "5"))]
    (initial "2024-05-01T09:00:00.000Z").

Definition clear_flags : body :=
  {| body_title := None;
     body_description := Some (JStr EmptyString);
     body_completed := Some (JBool false) |}.

Definition mark_done : body :=
  {| body_title := None; body_description := None;
     body_completed := Some (JBool true) |}.

Definition null_title : body :=
  {| body_title := Some JNull; body_description := None;
     body_completed := None |}.

(** ** The documented contract

    [swaggerDocument.paths] (lines 31-128) names, for each route, the status
    codes of its responses. *)
Inductive route : Type :=
  | PostTasks
  | GetTasks
  | GetTask
  | PutTask
  | DeleteTask.

(** The route that [app.post], [app.get], [app.put] and [app.delete]
    register each handler under. *)
Definition route_of (r : request) : route :=
  match r with
  | Create _ _ => PostTasks
  | ListAll => GetTasks
  | GetById _ => GetTask
  | Update _ _ _ => PutTask
  | Delete _ => DeleteTask
  end.

(** The keys of [responses] in the document: lines 36-37 (get), 72-75
    (post), 85-88 (get by id), 111-114 (put), 122-125 (delete). *)
Definition documented_statuses (rt : route) : list Z :=
  match rt with
  | GetTasks => [200]
  | PostTasks => [201; 400]
  | GetTask => [200; 404]
  | PutTask => [200; 404]
  | DeleteTask => [200; 404]
  end.

(** ** Reading a run *)

(** A create that passes the [!title] guard. *)
Definition accepted (r : request) : bool :=
  match r with
  | Create _ b => field_truthy (body_title b)
  | _ => false
  end.

(** How many requests of a run are accepted creates. *)
Definition accepted_creates (rs : list request) : Z :=
  Z.of_nat (length (List.filter accepted rs)).

(** The clocks read by the create requests of a run, and by its update
    requests. *)
Definition create_clocks (rs : list request) : list string :=
  rs ≫= (fun r => match r with Create now _ => [now] | _ => [] end).

Definition update_clocks (rs : list request) : list string :=
  rs ≫= (fun r => match r with Update now _ _ => [now] | _ => [] end).

(** A run of creates, one per clock and body. *)
Definition creates (cs : list (string * body)) : list request :=
  (fun c => Create (fst c) (snd c)) <$> cs.

(** Whether a code unit is a decimal digit. *)
Definition is_decimal_digit (c : N) : bool :=
  match digit_value 10 c with
  | Some _ => true
  | None => false
  end.

(** What may follow the digits of a path parameter without being read:
    nothing, or anything that starts with a character that is no digit. *)
Definition ignored_tail (junk : jsstring) : Prop :=
  match junk with
  | [] => True
  | c :: _ => is_decimal_digit c = false
  end.

(** Ids in array order are increasing. *)
Definition ids_increasing (s : state) : Prop := StronglySorted Z.lt (ids s).

(** Every id in the array is at least 1 and at most the counter, in every
    state the service reaches. *)
Definition ids_bounded (s : state) : Prop :=
  Forall (fun i => 1 <= i <= nextId s) (ids s).

(** Closes the side cases of a case analysis on a request. *)
Ltac close_cases :=
  repeat split; try discriminate; try lia; try congruence;
  try (intros [? | ?]; first [discriminate | lia | congruence]).

(** * Properties *)

(** ** The sample store *)

Example sample_store_value :
  sample_store =
  {| tasks :=
       [ {| id := 1; title := JStr "Tarefa Exemplo";
            description := JStr "Primeira tarefa"; completed := JBool false;
            createdAt := "2024-05-01T09:00:00.000Z"; updatedAt := None |};
         {| id := 4; title := JStr "Buy milk";
            description := JStr "two litres"; completed := JBool true;
            createdAt := "2024-05-01T09:30:00.000Z"; updatedAt := None |} ];
     nextId := 6 |}.
Proof. reflexivity. Qed.

(** ** Numbers *)

Example js_incr_counts : js_incr 5 = 6.
Proof. reflexivity. Qed.

Example js_incr_stuck : js_incr max_counter = max_counter.
Proof. vm_compute. reflexivity. Qed.

Lemma round_double_exact (n : Z) : 0 <= n <= 2 ^ 53 -> round_double n = n.
Proof.
  intros Hn. destruct (Z.eq_dec n (2 ^ 53)) as [-> | Hne].
  - vm_compute. reflexivity.
  - unfold round_double. rewrite (Z.abs_eq n) by lia.
    assert (Z.log2 n - 52 <= 0) as He.
    { destruct (Z.eq_dec n 0) as [-> | Hpos]; [vm_compute; discriminate |].
      assert (Z.log2 n < 53); [| lia].
      apply Z.log2_lt_pow2; lia. }
    apply Z.leb_le in He. rewrite He. reflexivity.
Qed.

Lemma js_incr_below (n : Z) : 0 <= n < max_counter -> js_incr n = n + 1.
Proof.
  unfold js_incr, max_counter. intros Hn. apply round_double_exact. lia.
Qed.

Lemma to_number_exact (n : Z) : 0 <= n <= 2 ^ 53 -> to_number n = JFin n.
Proof.
  intros Hn. unfold to_number. rewrite round_double_exact by exact Hn.
  assert (2 ^ 53 < 2 ^ 1024) by (apply Z.pow_lt_mono_r; lia).
  rewrite Z.abs_eq by lia.
  destruct (Z.leb_spec (2 ^ 1024) n); [lia | reflexivity].
Qed.

(** ** parseInt *)

Example parseInt_1abc : parseInt (str "1abc") = JFin 1.
Proof. reflexivity. Qed.

Example parseInt_abc : parseInt (str "abc") = JNaN.
Proof. reflexivity. Qed.

Example parseInt_hex : parseInt (str "  -0x1f") = JFin (-31).
Proof. reflexivity. Qed.

Example parseInt_rounds :
  parseInt (str "9007199254740993") = JFin 9007199254740992.
Proof. vm_compute. reflexivity. Qed.

Example decimal_max : decimal max_counter = str "9007199254740992".
Proof. vm_compute. reflexivity. Qed.

Lemma digits_value_snoc (ds : list Z) (d : Z) :
  digits_value 10 (ds ++ [d]) = digits_value 10 ds * 10 + d.
Proof. unfold digits_value. rewrite fold_left_app. reflexivity. Qed.

Lemma decimal_digits_acc (fuel : nat) :
  forall n acc, decimal_digits fuel n acc = decimal_digits fuel n [] ++ acc.
Proof.
  induction fuel as [| fuel IH]; intros n acc; simpl; [reflexivity |].
  destruct (n <? 10); [reflexivity |].
  rewrite (IH _ (_ :: acc)), (IH _ [_]), <- app_assoc. reflexivity.
Qed.

(** With enough fuel the digits are digits, there is at least one, and they
    denote the number. *)
Lemma decimal_digits_spec (fuel : nat) :
  forall n, 0 <= n < 2 ^ Z.of_nat fuel -> fuel <> O ->
    let ds := decimal_digits fuel n [] in
    digits_value 10 ds = n /\ Forall (fun d => 0 <= d < 10) ds /\ ds <> [].
Proof.
  induction fuel as [| fuel IH]; intros n Hn Hfuel; [congruence |].
  simpl decimal_digits. destruct (Z.ltb_spec n 10) as [Hlt | Hge].
  - split; [| split].
    + unfold digits_value. simpl. lia.
    + constructor; [lia | constructor].
    + discriminate.
  - rewrite decimal_digits_acc.
    assert (0 <= n / 10 < 2 ^ Z.of_nat fuel) as Hq.
    { rewrite Nat2Z.inj_succ, Z.pow_succ_r in Hn by lia.
      split; [apply Z.div_pos; lia |].
      apply Z.div_lt_upper_bound; lia. }
    assert (1 <= n / 10) as Hq1 by (apply Z.div_le_lower_bound; lia).
    assert (fuel <> O) as Hfuel' by (intros ->; simpl in Hq; lia).
    destruct (IH _ Hq Hfuel') as (Hv & Hd & Hne).
    split; [| split].
    + rewrite digits_value_snoc, Hv.
      pose proof (Z.div_mod n 10 ltac:(lia)). lia.
    + apply Forall_app. split; [exact Hd |].
      constructor; [apply Z.mod_pos_bound; lia | constructor].
    + intros Heq. apply app_eq_nil in Heq. destruct Heq; discriminate.
Qed.

Lemma digit_char_value (d : Z) :
  0 <= d < 10 -> digit_value 10 (digit_char d) = Some d.
Proof.
  intros Hd. unfold digit_value, digit_char. rewrite Z2N.id by lia.
  destruct (Z.leb_spec 48 (48 + d)); [| lia].
  destruct (Z.leb_spec (48 + d) 57); [| lia]. simpl.
  replace (48 + d - 48) with d by lia.
  destruct (Z.ltb_spec d 10); [reflexivity | lia].
Qed.

Lemma digit_char_plain (d : Z) :
  0 <= d < 10 ->
  let c := digit_char d in
  is_white_space c = false /\ N.eqb c 45 = false /\ N.eqb c 43 = false
  /\ N.eqb c 120 = false /\ N.eqb c 88 = false.
Proof.
  intros Hd c. subst c.
  assert (d = 0 \/ d = 1 \/ d = 2 \/ d = 3 \/ d = 4 \/ d = 5 \/ d = 6
          \/ d = 7 \/ d = 8 \/ d = 9) as Hcases by lia.
  repeat (destruct Hcases as [-> | Hcases]); try subst d;
    vm_compute; repeat split; reflexivity.
Qed.

Lemma leading_digits_chars (ds : list Z) :
  Forall (fun d => 0 <= d < 10) ds ->
  leading_digits 10 (digit_char <$> ds) = ds.
Proof.
  induction 1 as [| d ds Hd _ IH]; [reflexivity |].
  rewrite fmap_cons. simpl. rewrite digit_char_value by exact Hd.
  rewrite IH. reflexivity.
Qed.

(** A run of decimal digit characters is read back as the number it
    spells. *)
Lemma parseInt_digit_chars (ds : list Z) :
  Forall (fun d => 0 <= d < 10) ds -> ds <> [] ->
  parseInt (digit_char <$> ds) = to_number (digits_value 10 ds).
Proof.
  intros Hds Hne. pose proof (leading_digits_chars ds Hds) as Hlead.
  destruct ds as [| d0 rest]; [congruence |].
  inversion Hds as [| ? ? Hd0 Hrest]; subst.
  destruct (digit_char_plain d0 Hd0) as (Hws & Hminus & Hplus & _).
  unfold parseInt. rewrite fmap_cons in *. simpl trim_start. rewrite Hws.
  unfold strip_sign. rewrite Hminus, Hplus.
  assert (strip_radix (digit_char d0 :: (digit_char <$> rest))
          = (10, digit_char d0 :: (digit_char <$> rest))) as ->.
  { destruct rest as [| d1 rest']; [reflexivity |].
    inversion Hrest as [| ? ? Hd1 _]; subst.
    destruct (digit_char_plain d1 Hd1) as (_ & _ & _ & Hx & HX).
    rewrite fmap_cons. unfold strip_radix. rewrite Hx, HX.
    rewrite andb_false_r. reflexivity. }
  rewrite Hlead. reflexivity.
Qed.

(** Reading back a printed id gives the id. *)
Lemma parseInt_decimal (n : Z) :
  0 <= n <= 2 ^ 53 -> parseInt (decimal n) = JFin n.
Proof.
  intros Hn. unfold decimal.
  assert (0 <= n < 2 ^ Z.of_nat (S (Z.to_nat (Z.log2 n)))) as Hfuel.
  { rewrite Nat2Z.inj_succ, Z2Nat.id by apply Z.log2_nonneg.
    split; [lia |]. destruct (Z.eq_dec n 0) as [-> | Hpos].
    - vm_compute. reflexivity.
    - apply Z.log2_spec. lia. }
  destruct (decimal_digits_spec _ _ Hfuel ltac:(discriminate))
    as (Hv & Hd & Hne).
  change (parseInt (digit_char <$>
            decimal_digits (S (Z.to_nat (Z.log2 n))) n []) = JFin n).
  rewrite parseInt_digit_chars by assumption.
  rewrite Hv. apply to_number_exact. exact Hn.
Qed.

(** ** Array lookups *)

Lemma findIndex_Some (n : jsnum) (l : list task) (i : nat) (t : task) :
  findIndex n l = Some (i, t) <->
  l !! i = Some t /\ has_id n t
  /\ forall j y, l !! j = Some y -> (j < i)%nat -> ~ has_id n y.
Proof. unfold findIndex. apply list_find_Some. Qed.

Lemma findIndex_None (n : jsnum) (l : list task) :
  findIndex n l = None <-> Forall (fun t => ~ has_id n t) l.
Proof. unfold findIndex. apply list_find_None. Qed.

Lemma find_findIndex (n : jsnum) (l : list task) :
  find n l = snd <$> findIndex n l.
Proof. reflexivity. Qed.

Lemma has_id_JFin (n : jsnum) (t : task) : has_id n t <-> n = JFin (id t).
Proof.
  unfold has_id, strict_eq. destruct n as [| neg | z]; try (split; discriminate).
  rewrite Z.eqb_eq. split; [intros -> | intros [= ->]]; reflexivity.
Qed.

(** The index found splits the array around the first match. *)
Lemma findIndex_split (n : jsnum) (l : list task) (i : nat) (t : task) :
  findIndex n l = Some (i, t) ->
  exists before after,
    l = before ++ t :: after /\ length before = i
    /\ Forall (fun y => ~ has_id n y) before
    /\ delete i l = before ++ after.
Proof.
  intros (Hi & _ & Hleast)%findIndex_Some.
  exists (take i l), (drop (S i) l).
  pose proof (lookup_lt_Some _ _ _ Hi) as Hlt.
  split; [| split; [| split]].
  - symmetry. apply take_drop_middle. exact Hi.
  - rewrite length_take. lia.
  - apply Forall_lookup. intros j y Hj.
    pose proof (lookup_lt_Some _ _ _ Hj) as Hjlt.
    rewrite length_take in Hjlt.
    rewrite lookup_take_lt in Hj by lia. apply (Hleast j y Hj). lia.
  - apply delete_take_drop.
Qed.

(** ** The handlers, case by case *)

Lemma create_rejected (now : string) (b : body) (s : state) :
  field_truthy (body_title b) = false ->
  create now b s = (failure 400 msg_title_required, s).
Proof.
  intros H. unfold create, field_truthy in *.
  destruct (body_title b) as [v |]; [rewrite H |]; reflexivity.
Qed.

Lemma create_accepted (now : string) (b : body) (s : state) :
  field_truthy (body_title b) = true ->
  exists v, body_title b = Some v /\
  let newTask :=
    {| id := nextId s; title := v;
       description := js_or (body_description b) (JStr EmptyString);
       completed := js_or (body_completed b) (JBool false);
       createdAt := now; updatedAt := None |} in
  create now b s =
    (ok_task 201 (Some msg_created) newTask,
     {| tasks := tasks s ++ [newTask]; nextId := js_incr (nextId s) |}).
Proof.
  intros H. unfold create, field_truthy in *.
  destruct (body_title b) as [v |]; [| discriminate].
  exists v. rewrite H. split; reflexivity.
Qed.

Lemma update_found (now : string) (p : param) (b : body) (s : state)
    (i : nat) (old : task) :
  findIndex (parseInt_param p) (tasks s) = Some (i, old) ->
  update now p b s =
    (ok_task 200 (Some msg_updated) (merge now b old),
     {| tasks := <[i := merge now b old]> (tasks s); nextId := nextId s |}).
Proof. intros H. unfold update. rewrite H. reflexivity. Qed.

Lemma update_missing (now : string) (p : param) (b : body) (s : state) :
  findIndex (parseInt_param p) (tasks s) = None ->
  update now p b s = (failure 404 msg_not_found, s).
Proof. intros H. unfold update. rewrite H. reflexivity. Qed.

Lemma update_ok_found (now : string) (p : param) (b : body) (s : state) :
  status (fst (update now p b s)) = 200 ->
  exists i old, findIndex (parseInt_param p) (tasks s) = Some (i, old).
Proof.
  destruct (findIndex (parseInt_param p) (tasks s)) as [[i old] |] eqn:E.
  - eauto.
  - rewrite update_missing by exact E. discriminate.
Qed.

Lemma delete_found (p : param) (s : state) (i : nat) (t : task) :
  findIndex (parseInt_param p) (tasks s) = Some (i, t) ->
  delete_task p s =
    (ok_task 200 (Some msg_deleted) t,
     {| tasks := delete i (tasks s); nextId := nextId s |}).
Proof. intros H. unfold delete_task. rewrite H. reflexivity. Qed.

Lemma delete_missing (p : param) (s : state) :
  findIndex (parseInt_param p) (tasks s) = None ->
  delete_task p s = (failure 404 msg_not_found, s).
Proof. intros H. unfold delete_task. rewrite H. reflexivity. Qed.

Lemma fmap_insert_same {B : Type} (f : task -> B) (l : list task)
    (i : nat) (old new : task) :
  l !! i = Some old -> f new = f old -> f <$> <[i := new]> l = f <$> l.
Proof.
  intros Hi Hf. rewrite list_fmap_insert, Hf.
  apply list_insert_id. rewrite list_lookup_fmap, Hi. reflexivity.
Qed.

(** ** Create without a title *)

(** C2.  A create whose [title] is missing or falsy ([undefined], [null],
    [false], [0], the empty string) is answered with status 400 and the
    envelope [{success: false, message}], and leaves the state as it was: the
    same array, element for element and in the same order, and the same
    [nextId], so that no id is consumed. *)
Theorem create_without_title_rejected (now : string) (b : body) (s : state) :
  field_truthy (body_title b) = false ->
  let '(r, s') := create now b s in
  status r = 400 /\ success r = false /\ message r = Some msg_title_required
  /\ data r = NoData
  /\ s' = s /\ tasks s' = tasks s /\ nextId s' = nextId s.
Proof.
  intros H. rewrite create_rejected by exact H. simpl. tauto.
Qed.

Lemma create_without_title_rejected_witness :
  let '(r, s') :=
    create "2024-05-01T10:00:00.000Z"
      {| body_title := Some (JStr EmptyString);
         body_description := Some (JStr "no title");
         body_completed := None |}
      (initial "2024-05-01T09:00:00.000Z") in
  status r = 400 /\ success r = false /\ message r = Some msg_title_required
  /\ data r = NoData
  /\ s' = initial "2024-05-01T09:00:00.000Z"
  /\ tasks s' = tasks (initial "2024-05-01T09:00:00.000Z")
  /\ nextId s' = nextId (initial "2024-05-01T09:00:00.000Z").
Proof.
  apply (create_without_title_rejected
           "2024-05-01T10:00:00.000Z"
           {| body_title := Some (JStr EmptyString);
              body_description := Some (JStr "no title");
              body_completed := None |}
           (initial "2024-05-01T09:00:00.000Z")).
  reflexivity.
Defined.

(** ** Get by id *)

Lemma parseInt_never_NaN_with_digits (seg : jsstring) :
  parseInt seg = JNaN <->
  (let '(_, s) := strip_sign (trim_start seg) in
   let '(radix, s) := strip_radix s in
   leading_digits radix s = []).
Proof.
  unfold parseInt. destruct (strip_sign (trim_start seg)) as [negative s].
  destruct (strip_radix s) as [radix s'].
  destruct (leading_digits radix s') as [| d ds]; [tauto |].
  unfold to_number. split; [| discriminate].
  destruct (2 ^ 1024 <=? _); discriminate.
Qed.

(** C3, as the code has it.  A get-by-id changes nothing.  It answers 200 with
    a stored record exactly when some task's id is the number [parseInt] reads
    from the path segment, and the record returned is the first such task of
    the array; otherwise it answers 404 with [{success: false, message}].  A
    segment from which [parseInt] reads no number (it is absent, empty, or
    starts with no digit, like [abc]) gives [NaN], which equals no id, hence
    404 and never a validation error.  A segment that only starts with digits
    is read as those digits: [1abc] is read as 1. *)
Theorem get_by_id_found_iff (p : param) (s : state) :
  snd (get_by_id p s) = s
  /\ ((exists t, t ∈ tasks s /\ parseInt_param p = JFin (id t)) <->
      exists t, fst (get_by_id p s) = ok_task 200 None t)
  /\ (forall t, fst (get_by_id p s) = ok_task 200 None t ->
        exists i, findIndex (parseInt_param p) (tasks s) = Some (i, t))
  /\ (~ (exists t, t ∈ tasks s /\ parseInt_param p = JFin (id t)) ->
        fst (get_by_id p s) = failure 404 msg_not_found)
  /\ (parseInt_param p = JNaN ->
        fst (get_by_id p s) = failure 404 msg_not_found)
  /\ (forall seg, p = Some seg ->
        (let '(_, rest) := strip_sign (trim_start seg) in
         let '(radix, rest) := strip_radix rest in
         leading_digits radix rest = []) ->
        fst (get_by_id p s) = failure 404 msg_not_found)
  /\ status (fst (get_by_id p s)) <> 400
  /\ parseInt_param None = JNaN
  /\ parseInt_param (Some []) = JNaN
  /\ parseInt_param (Some (str "abc")) = JNaN
  /\ parseInt_param (Some (str "1abc")) = JFin 1
  /\ (status (fst (get_by_id p s)) = 200 ->
        exists i t,
          data (fst (get_by_id p s)) = OneTask t
          /\ success (fst (get_by_id p s)) = true
          /\ tasks s !! i = Some t
          /\ has_id (parseInt_param p) t
          /\ forall j y, tasks s !! j = Some y -> (j < i)%nat ->
               ~ has_id (parseInt_param p) y)
  /\ (Forall (fun t => ~ has_id (parseInt_param p) t) (tasks s) ->
        status (fst (get_by_id p s)) = 404
        /\ success (fst (get_by_id p s)) = false
        /\ message (fst (get_by_id p s)) = Some msg_not_found
        /\ data (fst (get_by_id p s)) = NoData).
Proof.
  assert (forall seg, p = Some seg ->
            (let '(_, rest) := strip_sign (trim_start seg) in
             let '(radix, rest) := strip_radix rest in
             leading_digits radix rest = []) ->
            parseInt_param p = JNaN) as Hseg.
  { intros seg -> Hnodigit. apply parseInt_never_NaN_with_digits.
    exact Hnodigit. }
  unfold get_by_id. rewrite find_findIndex.
  destruct (findIndex (parseInt_param p) (tasks s)) as [[i t] |] eqn:E; simpl.
  - pose proof E as (Hi & Hhas & Hleast)%findIndex_Some.
    pose proof Hhas as Hid%has_id_JFin.
    assert (t ∈ tasks s) as Hin by (apply list_elem_of_lookup; eauto).
    split; [reflexivity |].
    split; [split; intros _; eauto |].
    split; [intros t' [= <-]; eauto |].
    split; [intros Hno; destruct Hno; eauto |].
    split; [intros Hnan; congruence |].
    split; [intros seg Hp Hnodigit; specialize (Hseg seg Hp Hnodigit);
            congruence |].
    split; [discriminate |].
    split; [reflexivity |]. split; [reflexivity |].
    split; [reflexivity |]. split; [reflexivity |]. split.
    + intros _. exists i, t. split; [reflexivity |]. split; [reflexivity |].
      split; [exact Hi |]. split; [exact Hhas | exact Hleast].
    + intros Hnone. rewrite Forall_forall in Hnone.
      destruct (Hnone t Hin Hhas).
  - pose proof E as Hall%findIndex_None. rewrite Forall_forall in Hall.
    split; [reflexivity |].
    split.
    { split; [| intros [t [=]]].
      intros (t & Hin & Hid%has_id_JFin). destruct (Hall t Hin Hid). }
    split; [intros t [=] |].
    split; [reflexivity |]. split; [reflexivity |].
    split; [reflexivity |].
    split; [discriminate |].
    split; [reflexivity |]. split; [reflexivity |].
    split; [reflexivity |]. split; [reflexivity |]. split.
    + discriminate.
    + intros _. repeat split.
Qed.

(** C3, as the claim has it, fails on [1abc]: with the seeded task in the
    store, GET /api/tasks/1abc answers 200 with that task, not 404. *)
Lemma get_1abc_returns_seed :
  get_by_id (Some (str "1abc")) (initial "2024-05-01T09:00:00.000Z")
  = (ok_task 200 None
       {| id := 1; title := JStr "Tarefa Exemplo";
          description := JStr "Primeira tarefa"; completed := JBool false;
          createdAt := "2024-05-01T09:00:00.000Z"; updatedAt := None |},
     initial "2024-05-01T09:00:00.000Z")
  /\ status (fst (get_by_id (Some (str "1abc"))
                    (initial "2024-05-01T09:00:00.000Z"))) <> 404.
Proof. split; [reflexivity | discriminate]. Qed.

Lemma get_by_id_found_iff_witness :
  fst (get_by_id (Some (str "abc")) (initial "2024-05-01T09:00:00.000Z"))
  = failure 404 msg_not_found.
Proof.
  destruct (get_by_id_found_iff (Some (str "abc"))
              (initial "2024-05-01T09:00:00.000Z"))
    as (_ & _ & _ & _ & _ & Hnodigit & _).
  apply (Hnodigit (str "abc")); reflexivity.
Defined.

(** ** Update *)

(** C4.  A successful update overwrites, in the stored record, exactly the
    fields among [title], [description] and [completed] that the body defines:
    a defined field is stored whatever its value is, falsy values such as
    [false] and the empty string included, and an undefined one keeps the old
    value.  [updatedAt] is set to the clock, and the response carries the
    record as it is now stored.  The record rewritten is the first element of
    the array whose id is the number read from the path parameter; the
    response is [{success: true, message, data}] with the new record as
    [data]. *)
Theorem update_merges_defined_fields
    (now : string) (p : param) (b : body) (s : state) :
  status (fst (update now p b s)) = 200 ->
  exists i old new,
    findIndex (parseInt_param p) (tasks s) = Some (i, old)
    /\ fst (update now p b s) = ok_task 200 (Some msg_updated) new
    /\ tasks (snd (update now p b s)) !! i = Some new
    /\ (forall v, body_title b = Some v -> title new = v)
    /\ (forall v, body_description b = Some v -> description new = v)
    /\ (forall v, body_completed b = Some v -> completed new = v)
    /\ (body_title b = None -> title new = title old)
    /\ (body_description b = None -> description new = description old)
    /\ (body_completed b = None -> completed new = completed old)
    /\ updatedAt new = Some now
    /\ tasks s !! i = Some old
    /\ has_id (parseInt_param p) old
    /\ (forall j y, tasks s !! j = Some y -> (j < i)%nat ->
          ~ has_id (parseInt_param p) y)
    /\ success (fst (update now p b s)) = true
    /\ message (fst (update now p b s)) = Some msg_updated
    /\ data (fst (update now p b s)) = OneTask new
    /\ tasks (snd (update now p b s)) = <[i := new]> (tasks s)
    /\ nextId (snd (update now p b s)) = nextId s.
Proof.
  intros (i & old & E)%update_ok_found.
  exists i, old, (merge now b old). rewrite (update_found _ _ _ _ _ _ E).
  pose proof E as (Hi & Hid & Hleast)%findIndex_Some.
  split; [exact E |]. split; [reflexivity |]. split.
  { simpl. apply list_lookup_insert_eq. eapply lookup_lt_Some. exact Hi. }
  split; [intros v Hv; unfold merge; simpl; rewrite Hv; reflexivity |].
  split; [intros v Hv; unfold merge; simpl; rewrite Hv; reflexivity |].
  split; [intros v Hv; unfold merge; simpl; rewrite Hv; reflexivity |].
  split; [intros Hv; unfold merge; simpl; rewrite Hv; reflexivity |].
  split; [intros Hv; unfold merge; simpl; rewrite Hv; reflexivity |].
  split; [intros Hv; unfold merge; simpl; rewrite Hv; reflexivity |].
  split; [reflexivity |]. split; [exact Hi |]. split; [exact Hid |].
  split; [exact Hleast |]. repeat split.
Qed.

Lemma update_merges_defined_fields_witness :
  exists i old new,
    findIndex (parseInt_param (Some (str "4"))) (tasks sample_store)
    = Some (i, old)
    /\ fst (update "2024-05-01T10:00:00.000Z" (Some (str "4")) clear_flags
              sample_store)
       = ok_task 200 (Some msg_updated) new
    /\ tasks (snd (update "2024-05-01T10:00:00.000Z" (Some (str "4"))
                     clear_flags sample_store)) !! i = Some new
    /\ (forall v, body_title clear_flags = Some v -> title new = v)
    /\ (forall v, body_description clear_flags = Some v -> description new = v)
    /\ (forall v, body_completed clear_flags = Some v -> completed new = v)
    /\ (body_title clear_flags = None -> title new = title old)
    /\ (body_description clear_flags = None ->
        description new = description old)
    /\ (body_completed clear_flags = None -> completed new = completed old)
    /\ updatedAt new = Some "2024-05-01T10:00:00.000Z"
    /\ tasks sample_store !! i = Some old
    /\ has_id (parseInt_param (Some (str "4"))) old
    /\ (forall j y, tasks sample_store !! j = Some y -> (j < i)%nat ->
          ~ has_id (parseInt_param (Some (str "4"))) y)
    /\ success (fst (update "2024-05-01T10:00:00.000Z" (Some (str "4"))
                       clear_flags sample_store)) = true
    /\ message (fst (update "2024-05-01T10:00:00.000Z" (Some (str "4"))
                       clear_flags sample_store)) = Some msg_updated
    /\ data (fst (update "2024-05-01T10:00:00.000Z" (Some (str "4"))
                    clear_flags sample_store)) = OneTask new
    /\ tasks (snd (update "2024-05-01T10:00:00.000Z" (Some (str "4"))
                     clear_flags sample_store))
       = <[i := new]> (tasks sample_store)
    /\ nextId (snd (update "2024-05-01T10:00:00.000Z" (Some (str "4"))
                      clear_flags sample_store)) = nextId sample_store.
Proof.
  apply (update_merges_defined_fields "2024-05-01T10:00:00.000Z"
           (Some (str "4")) clear_flags sample_store).
  reflexivity.
Defined.

(** C5.  A successful update leaves alone everything it was not asked to
    change: the task's [id] and [createdAt], each of [title], [description]
    and [completed] that the body leaves undefined, every other element of the
    array, the length and order of the array, and [nextId]. *)
Theorem update_frame (now : string) (p : param) (b : body) (s : state) :
  status (fst (update now p b s)) = 200 ->
  exists i old new,
    tasks s !! i = Some old
    /\ tasks (snd (update now p b s)) = <[i := new]> (tasks s)
    /\ tasks (snd (update now p b s)) !! i = Some new
    /\ id new = id old
    /\ createdAt new = createdAt old
    /\ (body_title b = None -> title new = title old)
    /\ (body_description b = None -> description new = description old)
    /\ (body_completed b = None -> completed new = completed old)
    /\ (forall j, j <> i ->
          tasks (snd (update now p b s)) !! j = tasks s !! j)
    /\ length (tasks (snd (update now p b s))) = length (tasks s)
    /\ identity <$> tasks (snd (update now p b s)) = identity <$> tasks s
    /\ nextId (snd (update now p b s)) = nextId s.
Proof.
  intros (i & old & E)%update_ok_found.
  exists i, old, (merge now b old). rewrite (update_found _ _ _ _ _ _ E).
  pose proof E as (Hi & _)%findIndex_Some. simpl.
  split; [exact Hi |]. split; [reflexivity |]. split.
  { apply list_lookup_insert_eq. eapply lookup_lt_Some. exact Hi. }
  split; [reflexivity |]. split; [reflexivity |].
  split; [intros ->; reflexivity |]. split; [intros ->; reflexivity |].
  split; [intros ->; reflexivity |]. split.
  { intros j Hne. apply list_lookup_insert_ne. congruence. }
  split; [apply length_insert |]. split; [| reflexivity].
  apply (fmap_insert_same identity _ _ old); [exact Hi | reflexivity].
Qed.

Lemma update_frame_witness :
  exists i old new,
    tasks (initial "2024-05-01T09:00:00.000Z") !! i = Some old
    /\ tasks (snd (update "2024-05-01T10:00:00.000Z" (Some (str "1"))
                     mark_done (initial "2024-05-01T09:00:00.000Z")))
       = <[i := new]> (tasks (initial "2024-05-01T09:00:00.000Z"))
    /\ tasks (snd (update "2024-05-01T10:00:00.000Z" (Some (str "1"))
                     mark_done (initial "2024-05-01T09:00:00.000Z"))) !! i
       = Some new
    /\ id new = id old
    /\ createdAt new = createdAt old
    /\ (body_title mark_done = None -> title new = title old)
    /\ (body_description mark_done = None ->
        description new = description old)
    /\ (body_completed mark_done = None -> completed new = completed old)
    /\ (forall j, j <> i ->
          tasks (snd (update "2024-05-01T10:00:00.000Z" (Some (str "1"))
                        mark_done (initial "2024-05-01T09:00:00.000Z"))) !! j
          = tasks (initial "2024-05-01T09:00:00.000Z") !! j)
    /\ length (tasks (snd (update "2024-05-01T10:00:00.000Z" (Some (str "1"))
                             mark_done (initial "2024-05-01T09:00:00.000Z"))))
       = length (tasks (initial "2024-05-01T09:00:00.000Z"))
    /\ identity <$> tasks (snd (update "2024-05-01T10:00:00.000Z"
                                  (Some (str "1")) mark_done
                                  (initial "2024-05-01T09:00:00.000Z")))
       = identity <$> tasks (initial "2024-05-01T09:00:00.000Z")
    /\ nextId (snd (update "2024-05-01T10:00:00.000Z" (Some (str "1"))
                      mark_done (initial "2024-05-01T09:00:00.000Z")))
       = nextId (initial "2024-05-01T09:00:00.000Z").
Proof.
  apply (update_frame "2024-05-01T10:00:00.000Z" (Some (str "1")) mark_done
           (initial "2024-05-01T09:00:00.000Z")).
  reflexivity.
Defined.

(** C6.  An update or a delete whose id is the id of no stored task is
    answered with status 404 and the envelope [{success: false, message}], and
    leaves the state as it was: the same array, with the same elements, field
    values and order, and the same [nextId]. *)
Theorem unknown_id_changes_nothing
    (now : string) (p : param) (b : body) (s : state) :
  Forall (fun t => ~ has_id (parseInt_param p) t) (tasks s) ->
  update now p b s = (failure 404 msg_not_found, s)
  /\ delete_task p s = (failure 404 msg_not_found, s)
  /\ status (failure 404 msg_not_found) = 404
  /\ success (failure 404 msg_not_found) = false
  /\ message (failure 404 msg_not_found) = Some msg_not_found
  /\ tasks (snd (update now p b s)) = tasks s
  /\ nextId (snd (update now p b s)) = nextId s
  /\ tasks (snd (delete_task p s)) = tasks s
  /\ nextId (snd (delete_task p s)) = nextId s.
Proof.
  intros E%findIndex_None.
  rewrite (update_missing _ _ _ _ E), (delete_missing _ _ E).
  repeat split; reflexivity.
Qed.

Lemma unknown_id_changes_nothing_witness :
  update "2024-05-01T10:00:00.000Z" (Some (str "9999")) mark_done sample_store
  = (failure 404 msg_not_found, sample_store)
  /\ delete_task (Some (str "9999")) sample_store
     = (failure 404 msg_not_found, sample_store).
Proof.
  destruct (unknown_id_changes_nothing "2024-05-01T10:00:00.000Z"
              (Some (str "9999")) mark_done sample_store)
    as (Hupdate & Hdelete & _).
  - repeat constructor; vm_compute; discriminate.
  - split; [exact Hupdate | exact Hdelete].
Defined.

(** ** Delete *)

(** C7.  A delete whose id is the id of a stored task takes exactly one
    element out of the array, the first one with that id; the elements before
    it and after it stay, in the order they were in.  The array is shorter by
    one, so the [total] of a list request is one less than before, and the
    response is [{success: true, message, data}] with the removed record as
    [data]. *)
Theorem delete_removes_exactly_one (p : param) (s : state) :
  (exists t, t ∈ tasks s /\ has_id (parseInt_param p) t) ->
  exists before removed after n,
    tasks s = before ++ removed :: after
    /\ has_id (parseInt_param p) removed
    /\ Forall (fun t => ~ has_id (parseInt_param p) t) before
    /\ delete_task p s =
         (ok_task 200 (Some msg_deleted) removed,
          {| tasks := before ++ after; nextId := nextId s |})
    /\ success (fst (delete_task p s)) = true
    /\ length (tasks s) = S (length (tasks (snd (delete_task p s))))
    /\ total (fst (list_all s)) = Some (S n)
    /\ total (fst (list_all (snd (delete_task p s)))) = Some n
    /\ status (fst (delete_task p s)) = 200
    /\ message (fst (delete_task p s)) = Some msg_deleted
    /\ data (fst (delete_task p s)) = OneTask removed
    /\ tasks (snd (delete_task p s)) = before ++ after
    /\ nextId (snd (delete_task p s)) = nextId s
    /\ data (fst (list_all (snd (delete_task p s))))
       = AllTasks (before ++ after).
Proof.
  intros (t & Hin & Hid).
  destruct (findIndex (parseInt_param p) (tasks s)) as [[i removed] |] eqn:E.
  - destruct (findIndex_split _ _ _ _ E) as (before & after & Hl & _ & Hb & Hd).
    pose proof E as (_ & Hrm & _)%findIndex_Some.
    exists before, removed, after, (length (before ++ after)).
    rewrite (delete_found _ _ _ _ E), Hd. simpl. rewrite Hl.
    split; [reflexivity |]. split; [exact Hrm |]. split; [exact Hb |].
    split; [reflexivity |]. split; [reflexivity |].
    split; [rewrite !length_app; simpl; lia |].
    split; [rewrite !length_app; simpl; f_equal; lia |].
    repeat split.
  - apply findIndex_None in E. rewrite Forall_forall in E.
    destruct (E t Hin Hid).
Qed.

Lemma delete_removes_exactly_one_witness :
  exists before removed after n,
    tasks sample_store = before ++ removed :: after
    /\ has_id (parseInt_param (Some (str "1"))) removed
    /\ Forall (fun t => ~ has_id (parseInt_param (Some (str "1"))) t) before
    /\ delete_task (Some (str "1")) sample_store =
         (ok_task 200 (Some msg_deleted) removed,
          {| tasks := before ++ after; nextId := nextId sample_store |})
    /\ success (fst (delete_task (Some (str "1")) sample_store)) = true
    /\ length (tasks sample_store)
       = S (length (tasks (snd (delete_task (Some (str "1")) sample_store))))
    /\ total (fst (list_all sample_store)) = Some (S n)
    /\ total (fst (list_all (snd (delete_task (Some (str "1")) sample_store))))
       = Some n
    /\ status (fst (delete_task (Some (str "1")) sample_store)) = 200
    /\ message (fst (delete_task (Some (str "1")) sample_store))
       = Some msg_deleted
    /\ data (fst (delete_task (Some (str "1")) sample_store))
       = OneTask removed
    /\ tasks (snd (delete_task (Some (str "1")) sample_store))
       = before ++ after
    /\ nextId (snd (delete_task (Some (str "1")) sample_store))
       = nextId sample_store
    /\ data (fst (list_all (snd (delete_task (Some (str "1")) sample_store))))
       = AllTasks (before ++ after).
Proof.
  apply (delete_removes_exactly_one (Some (str "1")) sample_store).
  eexists. split; [apply list_elem_of_here | reflexivity].
Defined.

(** ** Update does not validate *)

(** C10.  Update checks neither the type nor the value of what it is given.
    It never answers 400.  When the id is that of a stored task, a [title],
    [description] or [completed] that the body defines is stored as it is,
    whatever JSON value it is: [null] is not [undefined], so a [null] title
    (or an empty one) replaces the stored title. *)
Theorem update_does_not_validate
    (now : string) (p : param) (b : body) (s : state) :
  status (fst (update now p b s)) <> 400
  /\ forall i old,
       findIndex (parseInt_param p) (tasks s) = Some (i, old) ->
       exists new,
         update now p b s =
           (ok_task 200 (Some msg_updated) new,
            {| tasks := <[i := new]> (tasks s); nextId := nextId s |})
         /\ tasks (snd (update now p b s)) !! i = Some new
         /\ (forall v, body_title b = Some v -> title new = v)
         /\ (forall v, body_description b = Some v -> description new = v)
         /\ (forall v, body_completed b = Some v -> completed new = v)
         /\ (body_title b = Some JNull -> title new = JNull)
         /\ (body_title b = Some (JStr EmptyString) ->
             title new = JStr EmptyString)
         /\ (body_description b = Some JNull -> description new = JNull)
         /\ (body_completed b = Some JNull -> completed new = JNull).
Proof.
  split.
  - unfold update.
    destruct (findIndex (parseInt_param p) (tasks s)) as [[i old] |];
      discriminate.
  - intros i old E. exists (merge now b old).
    rewrite (update_found _ _ _ _ _ _ E).
    pose proof E as (Hi & _)%findIndex_Some. simpl.
    split; [reflexivity |]. split.
    { apply list_lookup_insert_eq. eapply lookup_lt_Some. exact Hi. }
    repeat split; try (intros v ->; reflexivity); intros ->; reflexivity.
Qed.

Lemma update_does_not_validate_witness :
  exists new,
    update "2024-05-01T10:00:00.000Z" (Some (str "4")) null_title sample_store
    = (ok_task 200 (Some msg_updated) new,
       {| tasks := <[1%nat := new]> (tasks sample_store);
          nextId := nextId sample_store |})
    /\ title new = JNull.
Proof.
  destruct (update_does_not_validate "2024-05-01T10:00:00.000Z"
              (Some (str "4")) null_title sample_store) as [_ H].
  destruct (H 1%nat
              {| id := 4; title := JStr "Buy milk";
                 description := JStr "two litres"; completed := JBool true;
                 createdAt := "2024-05-01T09:30:00.000Z";
                 updatedAt := None |} eq_refl)
    as (new & Hupd & _ & _ & _ & _ & Hnull & _).
  exists new. split; [exact Hupd | apply Hnull; reflexivity].
Defined.

(** ** Runs *)

Lemma run_app (rs1 rs2 : list request) (s : state) :
  run (rs1 ++ rs2) s = run rs2 (run rs1 s).
Proof. unfold run. apply fold_left_app. Qed.

Lemma get_by_id_state (p : param) (s : state) : snd (get_by_id p s) = s.
Proof.
  unfold get_by_id. destruct (find (parseInt_param p) (tasks s)); reflexivity.
Qed.

(** What one request can do to the array: keep the identity of every element
    in place, append one task that carries the current [nextId], or take one
    element out. *)
Lemma handle_identities (r : request) (s : state) :
  identity <$> tasks (snd (handle r s)) = identity <$> tasks s
  \/ (exists t, tasks (snd (handle r s)) = tasks s ++ [t] /\ id t = nextId s)
  \/ (exists i, tasks (snd (handle r s)) = delete i (tasks s)).
Proof.
  destruct r as [now b | | p | now p b | p]; simpl.
  - destruct (field_truthy (body_title b)) eqn:Ht.
    + destruct (create_accepted now b s Ht) as (v & _ & ->).
      right. left. eexists. split; reflexivity.
    + rewrite create_rejected by exact Ht. left. reflexivity.
  - left. reflexivity.
  - rewrite get_by_id_state. left. reflexivity.
  - destruct (findIndex (parseInt_param p) (tasks s)) as [[i old] |] eqn:E.
    + rewrite (update_found _ _ _ _ _ _ E). left. simpl.
      pose proof E as (Hi & _)%findIndex_Some.
      apply (fmap_insert_same identity _ _ old); [exact Hi | reflexivity].
    + rewrite update_missing by exact E. left. reflexivity.
  - destruct (findIndex (parseInt_param p) (tasks s)) as [[i t] |] eqn:E.
    + rewrite (delete_found _ _ _ _ E). right. right. eexists. reflexivity.
    + rewrite delete_missing by exact E. left. reflexivity.
Qed.

(** What one request can do to the counter. *)
Lemma handle_nextId (r : request) (s : state) :
  (nextId (snd (handle r s)) = nextId s
   /\ ~ (exists t, tasks (snd (handle r s)) = tasks s ++ [t]))
  \/ nextId (snd (handle r s)) = js_incr (nextId s).
Proof.
  assert (forall t : task, tasks s <> tasks s ++ [t]) as Hgrow.
  { intros t Heq. apply (f_equal length) in Heq.
    rewrite length_app in Heq. simpl in Heq. lia. }
  assert (forall (t : task) i, delete i (tasks s) <> tasks s ++ [t]) as Hdel.
  { intros t i Heq. apply (f_equal length) in Heq.
    rewrite length_app in Heq. simpl in Heq.
    pose proof (sublist_length _ _ (sublist_delete (tasks s) i)). lia. }
  destruct r as [now b | | p | now p b | p]; simpl.
  - destruct (field_truthy (body_title b)) eqn:Ht.
    + destruct (create_accepted now b s Ht) as (v & _ & ->). right. reflexivity.
    + rewrite create_rejected by exact Ht. left.
      split; [reflexivity |]. intros [t Heq]. exact (Hgrow _ Heq).
  - left. split; [reflexivity |]. intros [t Heq]. exact (Hgrow _ Heq).
  - rewrite get_by_id_state. left.
    split; [reflexivity |]. intros [t Heq]. exact (Hgrow _ Heq).
  - left. destruct (findIndex (parseInt_param p) (tasks s)) as [[i old] |] eqn:E.
    + rewrite (update_found _ _ _ _ _ _ E). simpl. split; [reflexivity |].
      intros [t Heq]. apply (f_equal length) in Heq.
      rewrite length_insert, length_app in Heq. simpl in Heq. lia.
    + rewrite update_missing by exact E.
      split; [reflexivity |]. intros [t Heq]. exact (Hgrow _ Heq).
  - left. destruct (findIndex (parseInt_param p) (tasks s)) as [[i t] |] eqn:E.
    + rewrite (delete_found _ _ _ _ E). simpl. split; [reflexivity |].
      intros [t' Heq]. exact (Hdel _ _ Heq).
    + rewrite delete_missing by exact E.
      split; [reflexivity |]. intros [t' Heq]. exact (Hgrow _ Heq).
Qed.

Lemma js_incr_bounds (n : Z) :
  2 <= n <= max_counter ->
  n <= js_incr n <= max_counter
  /\ (js_incr n < max_counter -> js_incr n = n + 1).
Proof.
  intros Hn. destruct (Z.eq_dec n max_counter) as [-> | Hne].
  - rewrite js_incr_stuck. lia.
  - rewrite js_incr_below by lia. lia.
Qed.

Lemma ids_of_identities (l1 l2 : list task) :
  identity <$> l1 = identity <$> l2 -> id <$> l1 = id <$> l2.
Proof.
  intros H. apply (f_equal (fmap fst)) in H.
  rewrite <- !list_fmap_compose in H. exact H.
Qed.

Lemma store_inv_initial (boot : string) : store_inv (initial boot).
Proof.
  split; [split; vm_compute; discriminate |].
  intros _. unfold ids_fresh, ids. simpl. split.
  - apply NoDup_singleton.
  - constructor; [lia | constructor].
Qed.

Lemma store_inv_handle (r : request) (s : state) :
  store_inv s ->
  store_inv (snd (handle r s)) /\ nextId s <= nextId (snd (handle r s)).
Proof.
  intros [Hb Hfresh]. unfold counter_bounds in Hb.
  destruct (js_incr_bounds _ Hb) as [Hincr Hsucc].
  destruct (handle_nextId r s) as [[Hn Hnogrow] | Hn];
    destruct (handle_identities r s)
      as [Hsame | [(t & Hpush & Hid) | (i & Hdel)]].
  - (* nothing is added or removed *)
    split; [| lia]. split; [unfold counter_bounds; lia |].
    rewrite Hn. intros Hlt. destruct (Hfresh Hlt) as [Hnd Hall].
    unfold ids_fresh, ids in *. rewrite Hn, (ids_of_identities _ _ Hsame).
    split; assumption.
  - destruct Hnogrow. eauto.
  - (* one element is removed *)
    split; [| lia]. split; [unfold counter_bounds; lia |].
    rewrite Hn. intros Hlt. destruct (Hfresh Hlt) as [Hnd Hall].
    unfold ids_fresh, ids in *. rewrite Hn, Hdel, list_fmap_delete.
    split.
    + eapply sublist_NoDup; [exact Hnd | apply sublist_delete].
    + apply Forall_delete. exact Hall.
  - (* a create that leaves the array alone does not exist, but the counter
       only moves up anyway *)
    split; [| lia]. split; [unfold counter_bounds; lia |].
    rewrite Hn. intros Hlt. specialize (Hsucc Hlt).
    destruct (Hfresh ltac:(lia)) as [Hnd Hall].
    unfold ids_fresh, ids in *. rewrite Hn, (ids_of_identities _ _ Hsame).
    split; [exact Hnd |].
    eapply Forall_impl; [exact Hall |]. simpl. intros; lia.
  - (* one task is appended, with the current counter as its id *)
    split; [| lia]. split; [unfold counter_bounds; lia |].
    rewrite Hn. intros Hlt. specialize (Hsucc Hlt).
    destruct (Hfresh ltac:(lia)) as [Hnd Hall].
    unfold ids_fresh, ids in *. rewrite Hn, Hpush, fmap_app. simpl.
    rewrite Hid. split.
    + apply NoDup_app. split; [exact Hnd |]. split; [| apply NoDup_singleton].
      intros x Hx Hx'. apply list_elem_of_singleton in Hx'. subst x.
      rewrite Forall_forall in Hall. specialize (Hall _ Hx). lia.
    + apply Forall_app. split.
      * eapply Forall_impl; [exact Hall |]. simpl. intros; lia.
      * constructor; [lia | constructor].
  - split; [| lia]. split; [unfold counter_bounds; lia |].
    rewrite Hn. intros Hlt. specialize (Hsucc Hlt).
    destruct (Hfresh ltac:(lia)) as [Hnd Hall].
    unfold ids_fresh, ids in *. rewrite Hn, Hdel, list_fmap_delete.
    split.
    + eapply sublist_NoDup; [exact Hnd | apply sublist_delete].
    + apply Forall_delete.
      eapply Forall_impl; [exact Hall |]. simpl. intros; lia.
Qed.

Lemma store_inv_run (rs : list request) :
  forall s, store_inv s ->
    store_inv (run rs s) /\ nextId s <= nextId (run rs s).
Proof.
  induction rs as [| r rs IH]; intros s Hs; [split; [exact Hs | simpl; lia] |].
  destruct (store_inv_handle r s Hs) as [Hs' Hle].
  destruct (IH _ Hs') as [Hs'' Hle'].
  change (run (r :: rs) s) with (run rs (snd (handle r s))).
  split; [exact Hs'' | lia].
Qed.

(** ** Reaching the end of the counter *)

Lemma findIndex_singleton (t : task) :
  findIndex (JFin (id t)) [t] = Some (0%nat, t).
Proof.
  apply findIndex_Some. split; [reflexivity |]. split.
  - apply has_id_JFin. reflexivity.
  - intros j y _ Hj. lia.
Qed.

Lemma run_create_then_delete (k : Z) :
  2 <= k < max_counter ->
  run (create_then_delete k) {| tasks := []; nextId := k |}
  = {| tasks := []; nextId := k + 1 |}.
Proof.
  intros Hk. unfold run, create_then_delete. cbn [fold_left handle].
  destruct (create_accepted "2024-05-01T10:00:00.000Z"
              (only_title (JStr "x"))
              {| tasks := []; nextId := k |} eq_refl) as (v & _ & ->).
  cbn [snd tasks nextId app].
  set (t := {| id := k; title := v;
               description := _; completed := _;
               createdAt := _; updatedAt := None |}).
  rewrite (delete_found _ _ 0%nat t).
  - cbn [snd tasks nextId]. rewrite js_incr_below by lia. reflexivity.
  - cbn [parseInt_param tasks]. unfold max_counter in Hk.
    rewrite parseInt_decimal by lia. apply (findIndex_singleton t).
Qed.

Lemma run_cycles (boot : string) (n : Z) :
  0 <= n -> 2 + n <= max_counter ->
  run (cycles n) (initial boot) = {| tasks := []; nextId := 2 + n |}.
Proof.
  intros Hn. pattern n. apply natlike_ind; [| | exact Hn]; clear n Hn.
  - intros _. reflexivity.
  - intros n Hn IH Hle. unfold cycles in *.
    replace (Z.succ n) with (n + 1) by lia.
    rewrite seqZ_app by lia. rewrite bind_app, app_comm_cons, run_app.
    rewrite IH by lia.
    change (seqZ (2 + n) 1 ≫= create_then_delete)
      with (create_then_delete (0 + (2 + n)) ++ []).
    rewrite app_nil_r, Z.add_0_l, run_create_then_delete by lia.
    f_equal. lia.
Qed.

(** The saturating run is a run of the service, and it ends with an empty
    array and the counter at 2^53. *)
Lemma run_saturating (boot : string) :
  run saturating_requests (initial boot)
  = {| tasks := []; nextId := max_counter |}.
Proof.
  unfold saturating_requests.
  rewrite run_cycles by (unfold max_counter; lia). reflexivity.
Qed.

(** ** Create with a title *)

(** C1, as the code has it.  The store starts with the seeded task, whose id
    is 1, and with [nextId] at 2.  A create whose [title] is truthy is
    answered with status 201 and [{success: true, message, data}], where
    [data] is the new record.  The record takes the current [nextId] as its
    [id], the body's [title], the clock as [createdAt] and no [updatedAt];
    [description] is the empty string and [completed] is [false] when the body
    leaves them undefined (or gives a falsy value), and the body's value
    otherwise.  The record is appended at the end of the array.  The counter
    goes up by one as long as it is below 2^53; at 2^53 it stays there. *)
Theorem create_with_title (now : string) (b : body) (s : state) :
  field_truthy (body_title b) = true ->
  exists v t,
    body_title b = Some v
    /\ create now b s =
         (ok_task 201 (Some msg_created) t,
          {| tasks := tasks s ++ [t]; nextId := js_incr (nextId s) |})
    /\ id t = nextId s
    /\ title t = v
    /\ createdAt t = now
    /\ updatedAt t = None
    /\ (body_description b = None -> description t = JStr EmptyString)
    /\ (body_completed b = None -> completed t = JBool false)
    /\ (field_truthy (body_description b) = false ->
        description t = JStr EmptyString)
    /\ (field_truthy (body_completed b) = false -> completed t = JBool false)
    /\ (forall d, body_description b = Some d -> truthy d = true ->
        description t = d)
    /\ (forall c, body_completed b = Some c -> truthy c = true ->
        completed t = c)
    /\ (0 <= nextId s < max_counter ->
        nextId (snd (create now b s)) = nextId s + 1)
    /\ (nextId s = max_counter ->
        nextId (snd (create now b s)) = max_counter)
    /\ (forall boot, nextId (initial boot) = 2 /\ ids (initial boot) = [1])
    /\ status (fst (create now b s)) = 201
    /\ success (fst (create now b s)) = true
    /\ message (fst (create now b s)) = Some msg_created
    /\ data (fst (create now b s)) = OneTask t
    /\ tasks (snd (create now b s)) = tasks s ++ [t].
Proof.
  intros Ht. destruct (create_accepted now b s Ht) as (v & Hv & Hc).
  exists v. eexists. split; [exact Hv |]. split; [exact Hc |].
  rewrite Hc. cbn [id title createdAt updatedAt description completed snd
                   nextId].
  repeat split.
  - intros ->. reflexivity.
  - intros ->. reflexivity.
  - unfold field_truthy, js_or.
    destruct (body_description b) as [d |]; [intros -> |]; reflexivity.
  - unfold field_truthy, js_or.
    destruct (body_completed b) as [c |]; [intros -> |]; reflexivity.
  - intros d -> Hd. unfold js_or. rewrite Hd. reflexivity.
  - intros c -> Hc'. unfold js_or. rewrite Hc'. reflexivity.
  - apply js_incr_below.
  - intros ->. apply js_incr_stuck.
Qed.

Lemma create_with_title_witness :
  exists v t,
    body_title (only_title (JStr "Buy milk")) = Some v
    /\ create "2024-05-01T10:00:00.000Z" (only_title (JStr "Buy milk"))
         (initial "2024-05-01T09:00:00.000Z")
       = (ok_task 201 (Some msg_created) t,
          {| tasks := tasks (initial "2024-05-01T09:00:00.000Z") ++ [t];
             nextId := 3 |})
    /\ id t = 2
    /\ description t = JStr EmptyString
    /\ completed t = JBool false
    /\ updatedAt t = None.
Proof.
  destruct (create_with_title "2024-05-01T10:00:00.000Z"
              (only_title (JStr "Buy milk"))
              (initial "2024-05-01T09:00:00.000Z") eq_refl)
    as (v & t & Hv & Hc & Hid & _ & _ & Hup & Hd & Hcm & _).
  exists v, t.
  split; [exact Hv |]. split; [exact Hc |]. split; [exact Hid |].
  split; [apply Hd; reflexivity |]. split; [apply Hcm; reflexivity |].
  exact Hup.
Defined.

(** C1, as the claim has it, fails where the counter has reached 2^53: the
    create succeeds and the counter stays where it was. *)
Lemma create_at_max_counter_keeps_counter :
  let s := run saturating_requests (initial "2024-05-01T09:00:00.000Z") in
  let '(r, s') :=
    create "2024-05-01T10:00:00.000Z" (only_title (JStr "Buy milk")) s in
  status r = 201
  /\ nextId s = 9007199254740992
  /\ nextId s' = 9007199254740992
  /\ nextId s' <> nextId s + 1.
Proof.
  intros s. subst s. rewrite run_saturating.
  vm_compute. repeat split; discriminate.
Qed.

(** ** Ids over the life of the store *)

(** C8, as the code has it.  Take any state that the service reaches from the
    initial one by create, update, delete and read requests.  As long as
    [nextId] is below 2^53 there, the ids in the array are pairwise distinct
    and all below [nextId], and so is every id that was in the array at any
    earlier point of the run: an id that was deleted is below the counter and
    is not handed out again, because a task that a request appends takes the
    counter as its id, which is the id of no task of the array now or at any
    earlier point of the run.  Whatever the counter, no request changes the
    [id] or [createdAt] of a task in the array: a request keeps them in place
    for every element, or appends one task whose id is the counter, or takes
    one element out; and no request moves the counter down. *)
Theorem ids_unique_below_counter (boot : string) (rs : list request) :
  let s := run rs (initial boot) in
  (nextId s < max_counter ->
     NoDup (ids s)
     /\ Forall (fun i => i < nextId s) (ids s)
     /\ (forall rs1 rs2, rs = rs1 ++ rs2 ->
          Forall (fun i => i < nextId s) (ids (run rs1 (initial boot))))
     /\ (forall r t, tasks (snd (handle r s)) = tasks s ++ [t] ->
          id t = nextId s
          /\ (id t ∉ ids s)
          /\ forall rs1 rs2, rs = rs1 ++ rs2 ->
               (id t ∉ ids (run rs1 (initial boot)))))
  /\ forall r,
       (identity <$> tasks (snd (handle r s)) = identity <$> tasks s
        \/ (exists t, tasks (snd (handle r s)) = tasks s ++ [t]
                      /\ id t = nextId s)
        \/ (exists i, tasks (snd (handle r s)) = delete i (tasks s)))
       /\ nextId s <= nextId (snd (handle r s)).
Proof.
  cbv zeta.
  assert (forall l, l = rs ->
            nextId (run l (initial boot)) < max_counter ->
            forall rs1 rs2, l = rs1 ++ rs2 ->
              Forall (fun i => i < nextId (run l (initial boot)))
                (ids (run rs1 (initial boot)))) as Hearlier.
  { intros l _ Hlt rs1 rs2 ->. rewrite run_app in *.
    destruct (store_inv_run rs1 _ (store_inv_initial boot)) as [Hinv1 _].
    destruct (store_inv_run rs2 _ Hinv1) as [_ Hle].
    destruct Hinv1 as [_ Hfresh1].
    destruct (Hfresh1 ltac:(lia)) as [_ Hall1].
    eapply Forall_impl; [exact Hall1 |]. simpl. intros; lia. }
  specialize (Hearlier rs eq_refl).
  destruct (store_inv_run rs _ (store_inv_initial boot)) as [Hinv _].
  split.
  - intros Hlt. destruct Hinv as [_ Hfresh].
    destruct (Hfresh Hlt) as [Hnd Hall].
    assert (Forall (fun i => i < nextId (run rs (initial boot)))
              (ids (run rs (initial boot)))) as Hbelow.
    { eapply Forall_impl; [exact Hall |]. simpl. intros; lia. }
    split; [exact Hnd |]. split; [exact Hbelow |].
    split; [exact (Hearlier Hlt) |].
    intros r t Hpush.
    assert (id t = nextId (run rs (initial boot))) as Hid.
    { destruct (handle_identities r (run rs (initial boot)))
        as [Hsame | [(t0 & Hpush0 & Hid0) | (i & Hdel)]].
      - apply (f_equal length) in Hsame. rewrite !length_fmap, Hpush in Hsame.
        rewrite length_app in Hsame. simpl in Hsame. lia.
      - rewrite Hpush in Hpush0. apply app_inv_head in Hpush0.
        injection Hpush0 as ->. exact Hid0.
      - rewrite Hpush in Hdel. apply (f_equal length) in Hdel.
        rewrite length_app in Hdel. simpl in Hdel.
        pose proof (sublist_length _ _
                      (sublist_delete (tasks (run rs (initial boot))) i)).
        lia. }
    split; [exact Hid |]. split.
    + rewrite Hid. intros Hin. rewrite Forall_forall in Hbelow.
      specialize (Hbelow _ Hin). lia.
    + intros rs1 rs2 Hsplit Hin.
      pose proof (Hearlier Hlt rs1 rs2 Hsplit) as Hall1.
      rewrite Forall_forall in Hall1. specialize (Hall1 _ Hin). lia.
  - intros r. split.
    + destruct (handle_identities r (run rs (initial boot)))
        as [H | [(t & H & Hid) | H]]; eauto.
    + apply store_inv_handle. exact Hinv.
Qed.

Lemma ids_unique_below_counter_witness :
  let s :=
    run [Create "2024-05-01T10:00:00.000Z" (only_title (JStr "Buy milk"));
         Delete (Some (str "1"));
         Create "2024-05-01T11:00:00.000Z" (only_title (JStr "Walk"));
         Update "2024-05-01T12:00:00.000Z" (Some (str "3")) mark_done]
      (initial "2024-05-01T09:00:00.000Z") in
  NoDup (ids s) /\ Forall (fun i => i < nextId s) (ids s).
Proof.
  intros s.
  destruct (ids_unique_below_counter "2024-05-01T09:00:00.000Z"
              [Create "2024-05-01T10:00:00.000Z"
                 (only_title (JStr "Buy milk"));
               Delete (Some (str "1"));
               Create "2024-05-01T11:00:00.000Z" (only_title (JStr "Walk"));
               Update "2024-05-01T12:00:00.000Z" (Some (str "3")) mark_done])
    as [H _].
  destruct H as (Hnd & Hall & _); [vm_compute; reflexivity |].
  split; [exact Hnd | exact Hall].
Defined.

(** C8, as the claim has it, fails once the counter has reached 2^53: two
    creates in a row then give two tasks with the same id, and that id is not
    below the counter. *)
Lemma ids_repeat_at_max_counter :
  let s :=
    run (saturating_requests
         ++ [Create "2024-05-01T10:00:00.000Z" (only_title (JStr "first"));
             Create "2024-05-01T11:00:00.000Z" (only_title (JStr "second"))])
      (initial "2024-05-01T09:00:00.000Z") in
  ids s = [9007199254740992; 9007199254740992]
  /\ nextId s = 9007199254740992
  /\ ~ NoDup (ids s)
  /\ ~ Forall (fun i => i < nextId s) (ids s).
Proof.
  intros s. subst s. rewrite run_app, run_saturating.
  assert (ids (run [Create "2024-05-01T10:00:00.000Z"
                      (only_title (JStr "first"));
                    Create "2024-05-01T11:00:00.000Z"
                      (only_title (JStr "second"))]
                 {| tasks := []; nextId := max_counter |})
          = [9007199254740992; 9007199254740992]) as Hids
    by (vm_compute; reflexivity).
  assert (nextId (run [Create "2024-05-01T10:00:00.000Z"
                         (only_title (JStr "first"));
                       Create "2024-05-01T11:00:00.000Z"
                         (only_title (JStr "second"))]
                    {| tasks := []; nextId := max_counter |})
          = 9007199254740992) as Hnext
    by (vm_compute; reflexivity).
  rewrite Hids, Hnext. split; [reflexivity |]. split; [reflexivity |]. split.
  - intros Hnd. apply NoDup_cons in Hnd. destruct Hnd as [Hnotin _].
    apply Hnotin. apply list_elem_of_here.
  - intros Hall. apply Forall_cons in Hall. destruct Hall as [Hlt _]. lia.
Qed.

(** ** Create, then get *)

(** C9, as the code has it.  In any state the service reaches with [nextId]
    still below 2^53, a create whose [title] is truthy followed by a get with
    the printed id of the returned record answers 200 with that same record,
    field for field. *)
Theorem create_then_get_by_id
    (boot : string) (rs : list request) (now : string) (b : body) :
  let s := run rs (initial boot) in
  nextId s < max_counter ->
  field_truthy (body_title b) = true ->
  exists t,
    fst (create now b s) = ok_task 201 (Some msg_created) t
    /\ get_by_id (Some (decimal (id t))) (snd (create now b s))
       = (ok_task 200 None t, snd (create now b s))
    /\ data (fst (create now b s)) = OneTask t
    /\ data (fst (get_by_id (Some (decimal (id t))) (snd (create now b s))))
       = OneTask t
    /\ status (fst (get_by_id (Some (decimal (id t)))
                       (snd (create now b s)))) = 200.
Proof.
  cbv zeta. generalize (store_inv_run rs _ (store_inv_initial boot)).
  generalize (run rs (initial boot)). intros s [[Hb Hfresh] _] Hlt Ht.
  enough (exists t,
            fst (create now b s) = ok_task 201 (Some msg_created) t
            /\ get_by_id (Some (decimal (id t))) (snd (create now b s))
               = (ok_task 200 None t, snd (create now b s)))
    as (t & Hcreate & Hget).
  { exists t. rewrite Hget, Hcreate. repeat split. }
  unfold counter_bounds, max_counter in *.
  destruct (Hfresh Hlt) as [_ Hall]. unfold ids in Hall.
  destruct (create_accepted now b s Ht) as (v & _ & ->).
  eexists. split; [reflexivity |].
  cbn [snd id]. unfold get_by_id. cbn [parseInt_param tasks].
  rewrite parseInt_decimal by lia. unfold find.
  rewrite list_find_app_r.
  - change (list_find (has_id (JFin (nextId s))) [?t])
      with (findIndex (JFin (id t)) [t]).
    rewrite findIndex_singleton. reflexivity.
  - apply list_find_None, Forall_forall. intros y Hy Hid.
    apply has_id_JFin in Hid. injection Hid as Hid.
    rewrite Forall_forall in Hall.
    specialize (Hall (id y) ltac:(apply list_elem_of_fmap; eauto)). lia.
Qed.

Lemma create_then_get_by_id_witness :
  exists t,
    fst (create "2024-05-01T10:00:00.000Z" (only_title (JStr "Buy milk"))
           (run [Delete (Some (str "1"))]
              (initial "2024-05-01T09:00:00.000Z")))
    = ok_task 201 (Some msg_created) t
    /\ get_by_id (Some (decimal (id t)))
         (snd (create "2024-05-01T10:00:00.000Z"
                 (only_title (JStr "Buy milk"))
                 (run [Delete (Some (str "1"))]
                    (initial "2024-05-01T09:00:00.000Z"))))
       = (ok_task 200 None t,
          snd (create "2024-05-01T10:00:00.000Z"
                 (only_title (JStr "Buy milk"))
                 (run [Delete (Some (str "1"))]
                    (initial "2024-05-01T09:00:00.000Z")))).
Proof.
  destruct (create_then_get_by_id "2024-05-01T09:00:00.000Z"
              [Delete (Some (str "1"))] "2024-05-01T10:00:00.000Z"
              (only_title (JStr "Buy milk")))
    as (t & Hcreate & Hget & _).
  - vm_compute. reflexivity.
  - reflexivity.
  - exists t. split; [exact Hcreate | exact Hget].
Defined.

(** C9, as the claim has it, fails once the counter has reached 2^53: the
    second of two creates returns a record whose id the first one already
    has, and a get by that id answers with the first record. *)
Lemma get_after_create_at_max_counter :
  let s :=
    run (saturating_requests
         ++ [Create "2024-05-01T10:00:00.000Z" (only_title (JStr "first"))])
      (initial "2024-05-01T09:00:00.000Z") in
  let older :=
    {| id := 9007199254740992; title := JStr "first";
       description := JStr EmptyString; completed := JBool false;
       createdAt := "2024-05-01T10:00:00.000Z"; updatedAt := None |} in
  let created :=
    {| id := 9007199254740992; title := JStr "second";
       description := JStr EmptyString; completed := JBool false;
       createdAt := "2024-05-01T11:00:00.000Z"; updatedAt := None |} in
  let '(r, s') :=
    create "2024-05-01T11:00:00.000Z" (only_title (JStr "second")) s in
  r = ok_task 201 (Some msg_created) created
  /\ get_by_id (Some (decimal (id created))) s' = (ok_task 200 None older, s')
  /\ older <> created.
Proof.
  intros s. subst s. rewrite run_app, run_saturating.
  vm_compute. split; [reflexivity |]. split; [reflexivity | discriminate].
Qed.

(** * Further properties of the handlers *)

(** ** Failures, statuses and the documented contract *)

(** X2.  Whatever the request and the state, the response says [success:
    true] exactly when its status is 200 or 201 and [success: false] exactly
    when it is 400 or 404.  A failed request leaves the whole state as it was
    and answers with a message and no data; a successful one carries data. *)
Theorem failed_request_changes_nothing (r : request) (s : state) :
  (success (fst (handle r s)) = true <->
     status (fst (handle r s)) = 200 \/ status (fst (handle r s)) = 201)
  /\ (success (fst (handle r s)) = false <->
        status (fst (handle r s)) = 400 \/ status (fst (handle r s)) = 404)
  /\ (success (fst (handle r s)) = false ->
        snd (handle r s) = s
        /\ data (fst (handle r s)) = NoData
        /\ exists m, message (fst (handle r s)) = Some m)
  /\ (success (fst (handle r s)) = true ->
        data (fst (handle r s)) <> NoData).
Proof.
  assert (forall resp : response * state,
            (exists t code m, fst resp = ok_task code m t
                              /\ (code = 200 \/ code = 201))
            \/ (exists code m, resp = (failure code m, s)
                               /\ (code = 400 \/ code = 404))
            \/ (fst resp = fst (list_all s)) ->
            (success (fst resp) = true <->
               status (fst resp) = 200 \/ status (fst resp) = 201)
            /\ (success (fst resp) = false <->
                  status (fst resp) = 400 \/ status (fst resp) = 404)
            /\ (success (fst resp) = false ->
                  snd resp = s /\ data (fst resp) = NoData
                  /\ exists m, message (fst resp) = Some m)
            /\ (success (fst resp) = true -> data (fst resp) <> NoData))
    as Hshape.
  { intros resp [(t & code & m & -> & Hcode) | [(code & m & -> & Hcode) | ->]];
      simpl.
    - split; [split; [intros _; exact Hcode | reflexivity] |].
      split; [split; [discriminate | intros [-> | ->]; destruct Hcode; lia] |].
      split; [discriminate | intros _; discriminate].
    - split; [split; [discriminate | intros [-> | ->]; destruct Hcode; lia] |].
      split; [split; [intros _; exact Hcode | reflexivity] |].
      split; [intros _; eauto | discriminate].
    - split; [split; [intros _; left; reflexivity | reflexivity] |].
      split; [split; [discriminate | intros [? | ?]; lia] |].
      split; [discriminate | intros _; discriminate]. }
  apply Hshape. destruct r as [now b | | p | now p b | p]; simpl.
  - destruct (field_truthy (body_title b)) eqn:Ht.
    + destruct (create_accepted now b s Ht) as (v & _ & ->).
      left. do 3 eexists. split; [reflexivity | right; reflexivity].
    + rewrite create_rejected by exact Ht. right. left.
      do 2 eexists. split; [reflexivity | left; reflexivity].
  - right. right. reflexivity.
  - unfold get_by_id. destruct (find (parseInt_param p) (tasks s)).
    + left. do 3 eexists. split; [reflexivity | left; reflexivity].
    + right. left. do 2 eexists. split; [reflexivity | right; reflexivity].
  - destruct (findIndex (parseInt_param p) (tasks s)) as [[i old] |] eqn:E.
    + rewrite (update_found _ _ _ _ _ _ E).
      left. do 3 eexists. split; [reflexivity | left; reflexivity].
    + rewrite update_missing by exact E. right. left.
      do 2 eexists. split; [reflexivity | right; reflexivity].
  - destruct (findIndex (parseInt_param p) (tasks s)) as [[i t] |] eqn:E.
    + rewrite (delete_found _ _ _ _ E).
      left. do 3 eexists. split; [reflexivity | left; reflexivity].
    + rewrite delete_missing by exact E. right. left.
      do 2 eexists. split; [reflexivity | right; reflexivity].
Qed.

Lemma failed_request_changes_nothing_witness :
  snd (handle (Delete (Some (str "9999"))) sample_store) = sample_store.
Proof.
  destruct (failed_request_changes_nothing (Delete (Some (str "9999")))
              sample_store) as (_ & _ & Hfail & _).
  apply Hfail. reflexivity.
Defined.

(** X3.  Every handler answers with one of the status codes that the Swagger
    document lists for its route, and every code the document lists for a
    route is the answer to some request on that route. *)
Theorem statuses_as_documented :
  (forall r s, status (fst (handle r s)) ∈ documented_statuses (route_of r))
  /\ (forall rt code, code ∈ documented_statuses rt ->
        exists r s, route_of r = rt /\ status (fst (handle r s)) = code).
Proof.
  split.
  - intros r s. destruct r as [now b | | p | now p b | p]; simpl.
    + destruct (field_truthy (body_title b)) eqn:Ht.
      * destruct (create_accepted now b s Ht) as (v & _ & ->).
        apply list_elem_of_here.
      * rewrite create_rejected by exact Ht.
        apply list_elem_of_further, list_elem_of_here.
    + apply list_elem_of_here.
    + unfold get_by_id. destruct (find (parseInt_param p) (tasks s)).
      * apply list_elem_of_here.
      * apply list_elem_of_further, list_elem_of_here.
    + destruct (findIndex (parseInt_param p) (tasks s)) as [[i old] |] eqn:E.
      * rewrite (update_found _ _ _ _ _ _ E). apply list_elem_of_here.
      * rewrite update_missing by exact E.
        apply list_elem_of_further, list_elem_of_here.
    + destruct (findIndex (parseInt_param p) (tasks s)) as [[i t] |] eqn:E.
      * rewrite (delete_found _ _ _ _ E). apply list_elem_of_here.
      * rewrite delete_missing by exact E.
        apply list_elem_of_further, list_elem_of_here.
  - intros rt code Hin.
    pose (s0 := initial "2024-05-01T09:00:00.000Z").
    destruct rt; simpl in Hin;
      rewrite ?elem_of_cons, elem_of_nil in Hin;
      destruct Hin as [-> | Hin]; try destruct Hin as [-> | Hin];
      try destruct Hin.
    + exists (Create "2024-05-01T10:00:00.000Z" milk), s0.
      split; reflexivity.
    + exists (Create "2024-05-01T10:00:00.000Z" mark_done), s0.
      split; reflexivity.
    + exists ListAll, s0. split; reflexivity.
    + exists (GetById (Some (str "1"))), s0. split; reflexivity.
    + exists (GetById (Some (str "2"))), s0. split; reflexivity.
    + exists (Update "2024-05-01T10:00:00.000Z" (Some (str "1")) mark_done), s0.
      split; reflexivity.
    + exists (Update "2024-05-01T10:00:00.000Z" (Some (str "2")) mark_done), s0.
      split; reflexivity.
    + exists (Delete (Some (str "1"))), s0. split; reflexivity.
    + exists (Delete (Some (str "2"))), s0. split; reflexivity.
Qed.

Lemma statuses_as_documented_witness :
  exists r s, route_of r = PostTasks /\ status (fst (handle r s)) = 400.
Proof.
  destruct statuses_as_documented as [_ Hattained].
  apply (Hattained PostTasks 400).
  apply list_elem_of_further, list_elem_of_here.
Defined.

(** ** One path parameter, three handlers *)

(** X4.  Get, update and delete resolve a path parameter to the same task:
    when get answers with a record, that record is the first element of the
    array with the id read from the parameter, delete returns that very
    record and leaves the array without it, and update returns the body
    merged into it and leaves the array with the merged record in its place;
    neither moves the counter.  When get answers 404, so do update and
    delete, and the state stays as it is. *)
Theorem id_handlers_agree (now : string) (p : param) (b : body) (s : state) :
  (forall t, fst (get_by_id p s) = ok_task 200 None t ->
     fst (delete_task p s) = ok_task 200 (Some msg_deleted) t
     /\ fst (update now p b s) = ok_task 200 (Some msg_updated) (merge now b t))
  /\ (status (fst (get_by_id p s)) = 404 ->
        update now p b s = (failure 404 msg_not_found, s)
        /\ delete_task p s = (failure 404 msg_not_found, s))
  /\ (status (fst (get_by_id p s)) = 200 <->
        status (fst (update now p b s)) = 200)
  /\ (status (fst (get_by_id p s)) = 200 <->
        status (fst (delete_task p s)) = 200)
  /\ (status (fst (get_by_id p s)) = 200 ->
        exists t before after,
          data (fst (get_by_id p s)) = OneTask t
          /\ tasks s = before ++ t :: after
          /\ has_id (parseInt_param p) t
          /\ Forall (fun y => ~ has_id (parseInt_param p) y) before
          /\ data (fst (delete_task p s)) = OneTask t
          /\ tasks (snd (delete_task p s)) = before ++ after
          /\ nextId (snd (delete_task p s)) = nextId s
          /\ data (fst (update now p b s)) = OneTask (merge now b t)
          /\ tasks (snd (update now p b s))
             = before ++ merge now b t :: after
          /\ nextId (snd (update now p b s)) = nextId s).
Proof.
  unfold get_by_id. rewrite find_findIndex.
  destruct (findIndex (parseInt_param p) (tasks s)) as [[i t] |] eqn:E.
  - rewrite (update_found _ _ _ _ _ _ E), (delete_found _ _ _ _ E). simpl.
    split; [intros t' [= <-]; split; reflexivity |].
    split; [discriminate |]. split; [split; reflexivity |].
    split; [split; reflexivity |].
    intros _.
    destruct (findIndex_split _ _ _ _ E)
      as (before & after & Hl & Hlen & Hb & Hd).
    pose proof E as (_ & Hid & _)%findIndex_Some.
    exists t, before, after. rewrite Hd.
    split; [reflexivity |]. split; [exact Hl |]. split; [exact Hid |]. split; [exact Hb |].
    split; [reflexivity |]. split; [reflexivity |]. split; [reflexivity |].
    split; [reflexivity |]. split; [| reflexivity].
    rewrite Hl, <- Hlen. rewrite insert_app_r_alt by lia.
    rewrite Nat.sub_diag. reflexivity.
  - rewrite (update_missing _ _ _ _ E), (delete_missing _ _ E). simpl.
    split; [intros t' [=] |].
    split; [intros _; split; reflexivity |].
    split; [split; discriminate |]. split; [split; discriminate |].
    discriminate.
Qed.

Lemma id_handlers_agree_witness :
  exists t before after,
    tasks sample_store = before ++ t :: after
    /\ data (fst (delete_task (Some (str "4")) sample_store)) = OneTask t
    /\ tasks (snd (delete_task (Some (str "4")) sample_store))
       = before ++ after
    /\ tasks (snd (update "2024-05-01T10:00:00.000Z" (Some (str "4"))
                     mark_done sample_store))
       = before ++ merge "2024-05-01T10:00:00.000Z" mark_done t :: after.
Proof.
  destruct (id_handlers_agree "2024-05-01T10:00:00.000Z" (Some (str "4"))
              mark_done sample_store) as (_ & _ & _ & _ & Hfound).
  destruct Hfound
    as (t & before & after & _ & Hl & _ & _ & Hdata & Hdel & _ & _ & Hupd & _);
    [reflexivity |].
  exists t, before, after.
  split; [exact Hl |]. split; [exact Hdata |].
  split; [exact Hdel | exact Hupd].
Defined.

Lemma findIndex_insert_same_id (n : jsnum) (l : list task) (i : nat)
    (old new : task) :
  findIndex n l = Some (i, old) -> id new = id old ->
  findIndex n (<[i := new]> l) = Some (i, new).
Proof.
  intros (Hi & Hid & Hleast)%findIndex_Some Hsame. apply findIndex_Some.
  pose proof (lookup_lt_Some _ _ _ Hi) as Hlt.
  split; [apply list_lookup_insert_eq; exact Hlt |]. split.
  - unfold has_id in *. rewrite Hsame. exact Hid.
  - intros j y Hj Hji. rewrite list_lookup_insert_ne in Hj by lia.
    exact (Hleast j y Hj Hji).
Qed.

Lemma merge_twice (now : string) (b : body) (t : task) :
  merge now b (merge now b t) = merge now b t.
Proof.
  unfold merge. simpl.
  destruct (body_title b), (body_description b), (body_completed b);
    reflexivity.
Qed.

(** ** Update, again and read back *)

(** X5.  An update is idempotent: sending the same update a second time, read
    at the same clock, gives the same response and leaves the state the first
    one produced. *)
Theorem update_idempotent (now : string) (p : param) (b : body) (s : state) :
  update now p b (snd (update now p b s)) = update now p b s.
Proof.
  destruct (findIndex (parseInt_param p) (tasks s)) as [[i old] |] eqn:E.
  - rewrite (update_found _ _ _ _ _ _ E). cbn [snd].
    rewrite (update_found now p b _ i (merge now b old)).
    + cbn [tasks nextId]. rewrite merge_twice, list_insert_insert_eq.
      reflexivity.
    + cbn [tasks]. apply (findIndex_insert_same_id _ _ _ old); [exact E |].
      reflexivity.
  - rewrite (update_missing _ _ _ _ E). cbn [snd].
    apply update_missing. exact E.
Qed.

(** X6.  After a successful update, a get with the same path parameter
    answers 200 with the record that the update returned. *)
Theorem update_then_get (now : string) (p : param) (b : body) (s : state) :
  status (fst (update now p b s)) = 200 ->
  exists updated,
    fst (update now p b s) = ok_task 200 (Some msg_updated) updated
    /\ get_by_id p (snd (update now p b s))
       = (ok_task 200 None updated, snd (update now p b s))
    /\ data (fst (update now p b s)) = OneTask updated
    /\ data (fst (get_by_id p (snd (update now p b s)))) = OneTask updated
    /\ status (fst (get_by_id p (snd (update now p b s)))) = 200.
Proof.
  intros Hok.
  enough (exists updated,
            fst (update now p b s) = ok_task 200 (Some msg_updated) updated
            /\ get_by_id p (snd (update now p b s))
               = (ok_task 200 None updated, snd (update now p b s)))
    as (updated & Hupdate & Hget).
  { exists updated. rewrite Hget, Hupdate. repeat split. }
  apply update_ok_found in Hok. destruct Hok as (i & old & E).
  exists (merge now b old). rewrite (update_found _ _ _ _ _ _ E).
  split; [reflexivity |]. cbn [snd]. unfold get_by_id.
  rewrite find_findIndex. cbn [tasks].
  rewrite (findIndex_insert_same_id _ _ _ old (merge now b old) E eq_refl).
  reflexivity.
Qed.

Lemma update_then_get_witness :
  exists updated,
    fst (update "2024-05-01T10:00:00.000Z" (Some (str "4")) clear_flags
           sample_store)
    = ok_task 200 (Some msg_updated) updated
    /\ get_by_id (Some (str "4"))
         (snd (update "2024-05-01T10:00:00.000Z" (Some (str "4")) clear_flags
                 sample_store))
       = (ok_task 200 None updated,
          snd (update "2024-05-01T10:00:00.000Z" (Some (str "4")) clear_flags
                 sample_store)).
Proof.
  destruct (update_then_get "2024-05-01T10:00:00.000Z" (Some (str "4"))
              clear_flags sample_store) as (updated & Hupdate & Hget & _).
  - reflexivity.
  - exists updated. split; [exact Hupdate | exact Hget].
Defined.

(** ** Delete, then ask again *)

Lemma has_id_same_id (n : jsnum) (t y : task) :
  has_id n t -> has_id n y -> id y = id t.
Proof.
  intros Ht%has_id_JFin Hy%has_id_JFin. congruence.
Qed.

(** X7.  In a store whose ids are pairwise distinct, once a delete has
    succeeded the id is gone: a get, an update and a second delete with the
    same path parameter all answer 404 and change nothing. *)
Theorem delete_then_not_found
    (now : string) (p : param) (b : body) (s : state) :
  NoDup (ids s) ->
  status (fst (delete_task p s)) = 200 ->
  let s' := snd (delete_task p s) in
  get_by_id p s' = (failure 404 msg_not_found, s')
  /\ update now p b s' = (failure 404 msg_not_found, s')
  /\ delete_task p s' = (failure 404 msg_not_found, s').
Proof.
  intros Hnd Hok.
  destruct (findIndex (parseInt_param p) (tasks s)) as [[i t] |] eqn:E;
    [| rewrite (delete_missing _ _ E) in Hok; discriminate].
  rewrite (delete_found _ _ _ _ E). cbn [snd].
  destruct (findIndex_split _ _ _ _ E) as (before & after & Hl & _ & Hb & ->).
  pose proof E as (_ & Ht & _)%findIndex_Some.
  assert (findIndex (parseInt_param p) (before ++ after) = None) as Hnone.
  { apply findIndex_None, Forall_app. split; [exact Hb |].
    apply Forall_forall. intros y Hy Hidy.
    pose proof (has_id_same_id _ _ _ Ht Hidy) as Hsame.
    unfold ids in Hnd. rewrite Hl, fmap_app, fmap_cons in Hnd.
    apply NoDup_app in Hnd. destruct Hnd as (_ & _ & Hnd).
    apply NoDup_cons in Hnd. destruct Hnd as [Hnotin _].
    apply Hnotin. rewrite <- Hsame. apply list_elem_of_fmap_2. exact Hy. }
  split; [| split].
  - unfold get_by_id. rewrite find_findIndex. cbn [tasks]. rewrite Hnone.
    reflexivity.
  - apply update_missing. exact Hnone.
  - apply delete_missing. exact Hnone.
Qed.

Lemma delete_then_not_found_witness :
  get_by_id (Some (str "4")) (snd (delete_task (Some (str "4")) sample_store))
  = (failure 404 msg_not_found,
     snd (delete_task (Some (str "4")) sample_store)).
Proof.
  destruct (delete_then_not_found "2024-05-01T10:00:00.000Z"
              (Some (str "4")) mark_done sample_store) as (Hget & _).
  - apply (bool_decide_unpack _). vm_compute. reflexivity.
  - reflexivity.
  - exact Hget.
Defined.

(** ** The size of the array *)

(** X15.  The number of stored tasks changes only through an accepted create,
    which adds one, and a successful delete, which removes one.  An update, a
    list, a get and every failed request leave it as it is, and a list or a
    get leaves the whole state as it is. *)
Theorem length_changes (r : request) (s : state) :
  let n := length (tasks s) in
  let n' := length (tasks (snd (handle r s))) in
  (status (fst (handle r s)) = 201 -> n' = S n)
  /\ (route_of r = DeleteTask -> status (fst (handle r s)) = 200 -> S n' = n)
  /\ (route_of r <> DeleteTask -> status (fst (handle r s)) <> 201 -> n' = n)
  /\ (status (fst (handle r s)) = 400 \/ status (fst (handle r s)) = 404 ->
      n' = n)
  /\ (route_of r = GetTasks \/ route_of r = GetTask -> snd (handle r s) = s).
Proof.
  destruct r as [now b | | p | now p b | p]; cbn [handle route_of].
  - destruct (field_truthy (body_title b)) eqn:Ht.
    + destruct (create_accepted now b s Ht) as (v & _ & ->). simpl.
      rewrite length_app. simpl. close_cases.
    + rewrite create_rejected by exact Ht. simpl. close_cases.
  - simpl. close_cases.
  - rewrite get_by_id_state. unfold get_by_id.
    destruct (find (parseInt_param p) (tasks s)); simpl; close_cases.
  - destruct (findIndex (parseInt_param p) (tasks s)) as [[i old] |] eqn:E.
    + rewrite (update_found _ _ _ _ _ _ E). simpl. rewrite length_insert.
      close_cases.
    + rewrite update_missing by exact E. simpl. close_cases.
  - destruct (findIndex (parseInt_param p) (tasks s)) as [[i t] |] eqn:E.
    + rewrite (delete_found _ _ _ _ E). simpl.
      pose proof E as (Hi & _)%findIndex_Some.
      rewrite length_delete by eauto.
      pose proof (lookup_lt_Some _ _ _ Hi). close_cases.
    + rewrite delete_missing by exact E. simpl. close_cases.
Qed.

Lemma length_changes_witness :
  length (tasks (snd (handle (Create "2024-05-01T10:00:00.000Z" milk)
                        sample_store)))
  = S (length (tasks sample_store)).
Proof.
  destruct (length_changes (Create "2024-05-01T10:00:00.000Z" milk)
              sample_store) as (Hcreate & _).
  apply Hcreate. reflexivity.
Defined.

(** ** The counter and the ids over a run *)

Lemma handle_nextId_accepted (r : request) (s : state) :
  nextId (snd (handle r s))
  = if accepted r then js_incr (nextId s) else nextId s.
Proof.
  destruct r as [now b | | p | now p b | p]; cbn [handle accepted].
  - destruct (field_truthy (body_title b)) eqn:Ht.
    + destruct (create_accepted now b s Ht) as (v & _ & ->). reflexivity.
    + rewrite create_rejected by exact Ht. reflexivity.
  - reflexivity.
  - rewrite get_by_id_state. reflexivity.
  - unfold update.
    destruct (findIndex (parseInt_param p) (tasks s)) as [[i old] |];
      reflexivity.
  - unfold delete_task.
    destruct (findIndex (parseInt_param p) (tasks s)) as [[i t] |];
      reflexivity.
Qed.

Lemma js_incr_min (n : Z) :
  2 <= n <= max_counter -> js_incr n = Z.min (n + 1) max_counter.
Proof.
  intros Hn. destruct (Z.eq_dec n max_counter) as [-> | Hne].
  - rewrite js_incr_stuck. lia.
  - rewrite js_incr_below by lia. lia.
Qed.

Lemma accepted_creates_cons (r : request) (rs : list request) :
  accepted_creates (r :: rs)
  = (if accepted r then 1 else 0) + accepted_creates rs.
Proof.
  unfold accepted_creates. simpl. destruct (accepted r); simpl; lia.
Qed.

Lemma nextId_run (rs : list request) :
  forall s, 2 <= nextId s <= max_counter ->
    nextId (run rs s) = Z.min (nextId s + accepted_creates rs) max_counter.
Proof.
  induction rs as [| r rs IH]; intros s Hs.
  - unfold accepted_creates. simpl. lia.
  - change (run (r :: rs) s) with (run rs (snd (handle r s))).
    pose proof (handle_nextId_accepted r s) as Hn.
    rewrite accepted_creates_cons.
    assert (0 <= accepted_creates rs) by (unfold accepted_creates; lia).
    destruct (accepted r).
    + rewrite js_incr_min in Hn by exact Hs. rewrite IH by lia. lia.
    + rewrite IH by lia. lia.
Qed.

(** X11.  The counter counts the accepted creates and nothing else: after
    any run from the initial state, [nextId] is 2 plus the number of create
    requests of the run that had a truthy title, capped at 2^53.  Rejected
    creates, updates, deletes and reads do not move it, and it never goes
    down. *)
Theorem counter_counts_accepted_creates (boot : string) (rs : list request) :
  nextId (run rs (initial boot))
  = Z.min (2 + accepted_creates rs) max_counter
  /\ 2 <= nextId (run rs (initial boot)) <= max_counter
  /\ forall more,
       nextId (run rs (initial boot))
       <= nextId (run (rs ++ more) (initial boot)).
Proof.
  assert (2 <= nextId (initial boot) <= max_counter) as H0
    by (split; vm_compute; discriminate).
  assert (forall l, 0 <= accepted_creates l) as Hpos
    by (intros l; unfold accepted_creates; lia).
  pose proof (nextId_run rs _ H0) as Hrs. cbn [initial nextId] in Hrs.
  pose proof (Hpos rs).
  assert (2 <= nextId (run rs (initial boot)) <= max_counter) as Hb
    by (unfold max_counter in *; lia).
  split; [exact Hrs |]. split; [exact Hb |].
  intros more. rewrite run_app, (nextId_run more _ Hb).
  pose proof (Hpos more). lia.
Qed.

Lemma ids_bounded_handle (r : request) (s : state) :
  counter_bounds s -> ids_bounded s -> ids_bounded (snd (handle r s)).
Proof.
  unfold counter_bounds, ids_bounded, ids. intros Hb Hall.
  destruct (js_incr_bounds _ Hb) as [Hincr _].
  assert (nextId s <= nextId (snd (handle r s))) as Hle.
  { rewrite handle_nextId_accepted. destruct (accepted r); lia. }
  assert (Forall (fun i => 1 <= i <= nextId (snd (handle r s)))
            (id <$> tasks s)) as Hall'.
  { eapply Forall_impl; [exact Hall |]. simpl. intros; lia. }
  destruct (handle_identities r s)
    as [Hsame | [(t & Hpush & Hid) | (i & Hdel)]].
  - rewrite (ids_of_identities _ _ Hsame). exact Hall'.
  - rewrite Hpush, fmap_app. apply Forall_app. split; [exact Hall' |].
    simpl. constructor; [lia | constructor].
  - rewrite Hdel, list_fmap_delete. apply Forall_delete. exact Hall'.
Qed.

Lemma ids_bounded_run (rs : list request) :
  forall s, store_inv s -> ids_bounded s -> ids_bounded (run rs s).
Proof.
  induction rs as [| r rs IH]; intros s Hs Hb; [exact Hb |].
  change (run (r :: rs) s) with (run rs (snd (handle r s))).
  apply IH.
  - apply store_inv_handle. exact Hs.
  - apply ids_bounded_handle; [apply Hs | exact Hb].
Qed.

Lemma handlers_miss (now : string) (p : param) (b : body) (s : state) :
  findIndex (parseInt_param p) (tasks s) = None ->
  get_by_id p s = (failure 404 msg_not_found, s)
  /\ update now p b s = (failure 404 msg_not_found, s)
  /\ delete_task p s = (failure 404 msg_not_found, s).
Proof.
  intros E. split; [| split].
  - unfold get_by_id. rewrite find_findIndex, E. reflexivity.
  - apply update_missing. exact E.
  - apply delete_missing. exact E.
Qed.

(** X13.  In every state the service reaches, each stored id is an integer
    between 1 and the current [nextId].  So a path parameter that [parseInt]
    reads as anything else (zero, a negative number, a number above [nextId],
    an infinity, or [NaN]) is answered with 404 by get, update and delete,
    and changes nothing. *)
Theorem ids_within_counter
    (boot : string) (rs : list request) (now : string) (p : param) (b : body) :
  let s := run rs (initial boot) in
  Forall (fun i => 1 <= i <= nextId s) (ids s)
  /\ ((forall z, parseInt_param p = JFin z -> z < 1 \/ nextId s < z) ->
      get_by_id p s = (failure 404 msg_not_found, s)
      /\ update now p b s = (failure 404 msg_not_found, s)
      /\ delete_task p s = (failure 404 msg_not_found, s)).
Proof.
  cbv zeta.
  assert (ids_bounded (run rs (initial boot))) as Hall.
  { apply ids_bounded_run; [apply store_inv_initial |].
    unfold ids_bounded, ids. simpl. constructor; [lia | constructor]. }
  split; [exact Hall |].
  intros Hout. apply handlers_miss, findIndex_None, Forall_forall.
  intros t Hin Hid%has_id_JFin.
  unfold ids_bounded, ids in Hall. rewrite Forall_forall in Hall.
  specialize (Hall (id t) ltac:(apply list_elem_of_fmap_2; exact Hin)).
  destruct (Hout _ Hid); lia.
Qed.

Lemma ids_within_counter_witness :
  get_by_id (Some (str "-1"))
    (run [Create "2024-05-01T10:00:00.000Z" milk]
       (initial "2024-05-01T09:00:00.000Z"))
  = (failure 404 msg_not_found,
     run [Create "2024-05-01T10:00:00.000Z" milk]
       (initial "2024-05-01T09:00:00.000Z")).
Proof.
  destruct (ids_within_counter "2024-05-01T09:00:00.000Z"
              [Create "2024-05-01T10:00:00.000Z" milk]
              "2024-05-01T11:00:00.000Z" (Some (str "-1")) mark_done)
    as (_ & Hout).
  destruct Hout as (Hget & _); [| exact Hget].
  intros z [= <-]. left. reflexivity.
Defined.

(** ** The order of the array *)

Lemma StronglySorted_delete (l : list Z) :
  forall i, StronglySorted Z.lt l -> StronglySorted Z.lt (delete i l).
Proof.
  induction l as [| x l IH]; intros i Hs; [destruct i; exact Hs |].
  apply StronglySorted_cons in Hs. destruct Hs as [Hx Hl].
  destruct i as [| i]; [exact Hl |]. simpl.
  apply StronglySorted_cons. split; [apply Forall_delete; exact Hx |].
  apply IH. exact Hl.
Qed.

Lemma ids_increasing_handle (r : request) (s : state) :
  store_inv s ->
  (nextId s < max_counter -> ids_increasing s) ->
  nextId (snd (handle r s)) < max_counter ->
  ids_increasing (snd (handle r s)).
Proof.
  intros [Hb Hfresh] Hsorted Hlt. unfold counter_bounds in Hb.
  destruct (js_incr_bounds _ Hb) as [Hincr _].
  assert (nextId s < max_counter) as Hlt0.
  { rewrite handle_nextId_accepted in Hlt. destruct (accepted r); lia. }
  specialize (Hsorted Hlt0). destruct (Hfresh Hlt0) as [_ Hall].
  unfold ids_increasing, ids in *.
  destruct (handle_identities r s)
    as [Hsame | [(t & Hpush & Hid) | (i & Hdel)]].
  - rewrite (ids_of_identities _ _ Hsame). exact Hsorted.
  - rewrite Hpush, fmap_app. apply StronglySorted_app.
    split; [| split; [exact Hsorted |]].
    + intros x1 x2 Hx1 Hx2. simpl in Hx2.
      apply list_elem_of_singleton in Hx2. subst x2.
      rewrite Forall_forall in Hall. specialize (Hall _ Hx1). lia.
    + simpl. repeat constructor.
  - rewrite Hdel, list_fmap_delete. apply StronglySorted_delete.
    exact Hsorted.
Qed.

Lemma ids_increasing_run (rs : list request) :
  forall s, store_inv s ->
    (nextId s < max_counter -> ids_increasing s) ->
    nextId (run rs s) < max_counter -> ids_increasing (run rs s).
Proof.
  induction rs as [| r rs IH]; intros s Hs Hsorted Hlt; [exact (Hsorted Hlt) |].
  change (run (r :: rs) s) with (run rs (snd (handle r s))) in *.
  apply IH; [apply store_inv_handle; exact Hs | | exact Hlt].
  apply ids_increasing_handle; assumption.
Qed.

(** X10.  The array is kept in creation order: in every state the service
    reaches with [nextId] below 2^53, the ids of the stored tasks increase
    strictly from one element of the array to the next, so the order in which
    a list request returns the tasks is the order of their ids. *)
Theorem ids_increase_in_array_order (boot : string) (rs : list request) :
  let s := run rs (initial boot) in
  nextId s < max_counter ->
  StronglySorted Z.lt (ids s)
  /\ forall i j ti tj,
       tasks s !! i = Some ti -> tasks s !! j = Some tj ->
       ((i < j)%nat <-> id ti < id tj).
Proof.
  cbv zeta. intros Hlt.
  assert (ids_increasing (run rs (initial boot))) as Hsorted.
  { apply ids_increasing_run; [apply store_inv_initial | | exact Hlt].
    intros _. unfold ids_increasing, ids. simpl. repeat constructor. }
  split; [exact Hsorted |].
  unfold ids_increasing, ids in Hsorted.
  assert (forall i j ti tj,
            tasks (run rs (initial boot)) !! i = Some ti ->
            tasks (run rs (initial boot)) !! j = Some tj ->
            (i < j)%nat -> id ti < id tj) as Hmono.
  { generalize dependent (tasks (run rs (initial boot))). clear.
    intros l Hsorted i j ti tj Hi Hj Hij.
    rewrite <- (take_drop_middle l i ti Hi) in Hsorted, Hj.
    pose proof (lookup_lt_Some _ _ _ Hi) as Hilt.
    rewrite lookup_app_r in Hj by (rewrite length_take; lia).
    rewrite length_take, Nat.min_l in Hj by lia.
    destruct (j - i)%nat as [| k] eqn:Hk; [lia |]. simpl in Hj.
    rewrite fmap_app, fmap_cons in Hsorted.
    apply StronglySorted_app in Hsorted. destruct Hsorted as (_ & _ & Hs).
    apply StronglySorted_cons in Hs. destruct Hs as [Hall _].
    rewrite Forall_forall in Hall. apply Hall.
    apply list_elem_of_fmap_2. apply list_elem_of_lookup. eauto. }
  intros i j ti tj Hi Hj. split; [apply Hmono; assumption |].
  intros Hid. destruct (Nat.lt_trichotomy i j) as [Hij | [-> | Hji]].
  - exact Hij.
  - rewrite Hi in Hj. injection Hj as ->. lia.
  - pose proof (Hmono j i tj ti Hj Hi Hji). lia.
Qed.

Lemma ids_increase_in_array_order_witness :
  StronglySorted Z.lt (ids sample_store).
Proof.
  destruct (ids_increase_in_array_order "2024-05-01T09:00:00.000Z"
              [Create "2024-05-01T09:10:00.000Z" (only_title (JStr "a"));
               Create "2024-05-01T09:20:00.000Z" (only_title (JStr "b"));
               Create "2024-05-01T09:30:00.000Z" milk;
               Create "2024-05-01T09:40:00.000Z" (only_title (JStr "c"));
               Delete (Some (str "2")); Delete (Some (str "3"));
               Delete (Some (str "5"))]) as [Hsorted _].
  - vm_compute. reflexivity.
  - exact Hsorted.
Defined.

(** ** Stored tasks and their printed ids *)

Lemma findIndex_unique (l : list task) (i : nat) (t : task) :
  NoDup (id <$> l) -> l !! i = Some t ->
  findIndex (JFin (id t)) l = Some (i, t).
Proof.
  intros Hnd Hi. apply findIndex_Some.
  split; [exact Hi |]. split; [apply has_id_JFin; reflexivity |].
  intros j y Hj Hji Hid%has_id_JFin. injection Hid as Hid.
  assert ((id <$> l) !! i = Some (id t)) as Hi'
    by (rewrite list_lookup_fmap, Hi; reflexivity).
  assert ((id <$> l) !! j = Some (id t)) as Hj'
    by (rewrite list_lookup_fmap, Hj; simpl; congruence).
  pose proof (NoDup_lookup _ _ _ _ Hnd Hi' Hj'). lia.
Qed.

(** X9.  In every state the service reaches with [nextId] below 2^53, each
    stored task is found under its own printed id: a get with the decimal
    digits of the id of any task of the array answers 200 with exactly that
    task. *)
Theorem get_each_stored_task
    (boot : string) (rs : list request) (t : task) :
  let s := run rs (initial boot) in
  nextId s < max_counter ->
  t ∈ tasks s ->
  get_by_id (Some (decimal (id t))) s = (ok_task 200 None t, s)
  /\ status (fst (get_by_id (Some (decimal (id t))) s)) = 200
  /\ data (fst (get_by_id (Some (decimal (id t))) s)) = OneTask t.
Proof.
  cbv zeta. generalize (store_inv_run rs _ (store_inv_initial boot)).
  generalize (run rs (initial boot)). intros s [[Hb Hfresh] _] Hlt Hin.
  enough (get_by_id (Some (decimal (id t))) s = (ok_task 200 None t, s))
    as Hget by (rewrite Hget; repeat split).
  destruct (Hfresh Hlt) as [Hnd Hall]. unfold ids in *.
  unfold counter_bounds, max_counter in *.
  rewrite Forall_forall in Hall.
  pose proof (Hall (id t) ltac:(apply list_elem_of_fmap_2; exact Hin)).
  apply list_elem_of_lookup in Hin. destruct Hin as [i Hi].
  unfold get_by_id. rewrite find_findIndex. cbn [parseInt_param].
  rewrite parseInt_decimal by lia.
  rewrite (findIndex_unique _ _ _ Hnd Hi). reflexivity.
Qed.

Lemma get_each_stored_task_witness :
  let s := run [Create "2024-05-01T09:10:00.000Z" (only_title (JStr "a"));
                Delete (Some (str "1"))]
             (initial "2024-05-01T09:00:00.000Z") in
  let t := {| id := 2; title := JStr "a"; description := JStr EmptyString;
              completed := JBool false;
              createdAt := "2024-05-01T09:10:00.000Z"; updatedAt := None |} in
  get_by_id (Some (decimal (id t))) s = (ok_task 200 None t, s).
Proof.
  intros s t.
  destruct (get_each_stored_task "2024-05-01T09:00:00.000Z"
              [Create "2024-05-01T09:10:00.000Z" (only_title (JStr "a"));
               Delete (Some (str "1"))] t) as (Hget & _).
  - vm_compute. reflexivity.
  - apply list_elem_of_here.
  - exact Hget.
Defined.

(** ** Create, then delete *)

Lemma findIndex_fresh_last (l : list task) (t : task) :
  Forall (fun y => id y <> id t) l ->
  findIndex (JFin (id t)) (l ++ [t]) = Some (length l, t).
Proof.
  intros Hfresh. apply findIndex_Some. split; [| split].
  - rewrite lookup_app_r, Nat.sub_diag by lia. reflexivity.
  - apply has_id_JFin. reflexivity.
  - intros j y Hj Hjl Hid%has_id_JFin. injection Hid as Hid.
    rewrite lookup_app_l in Hj by exact Hjl.
    rewrite Forall_forall in Hfresh.
    apply (Hfresh y); [apply list_elem_of_lookup; eauto | congruence].
Qed.

(** X8.  In every state the service reaches with [nextId] below 2^53, a
    create followed by a delete with the printed id of the created record
    returns that record and puts the array back exactly as it was before the
    create; only the counter remembers the create, being one higher. *)
Theorem create_then_delete_restores
    (boot : string) (rs : list request) (now : string) (b : body) :
  let s := run rs (initial boot) in
  nextId s < max_counter ->
  field_truthy (body_title b) = true ->
  exists t,
    fst (create now b s) = ok_task 201 (Some msg_created) t
    /\ delete_task (Some (decimal (id t))) (snd (create now b s))
       = (ok_task 200 (Some msg_deleted) t,
          {| tasks := tasks s; nextId := nextId s + 1 |})
    /\ data (fst (create now b s)) = OneTask t
    /\ data (fst (delete_task (Some (decimal (id t)))
                     (snd (create now b s)))) = OneTask t
    /\ tasks (snd (delete_task (Some (decimal (id t)))
                      (snd (create now b s)))) = tasks s.
Proof.
  cbv zeta. generalize (store_inv_run rs _ (store_inv_initial boot)).
  generalize (run rs (initial boot)). intros s [[Hb Hfresh] _] Hlt Ht.
  enough (exists t,
            fst (create now b s) = ok_task 201 (Some msg_created) t
            /\ delete_task (Some (decimal (id t))) (snd (create now b s))
               = (ok_task 200 (Some msg_deleted) t,
                  {| tasks := tasks s; nextId := nextId s + 1 |}))
    as (t & Hcreate & Hdelete).
  { exists t. rewrite Hdelete, Hcreate. repeat split. }
  unfold counter_bounds in Hb.
  destruct (Hfresh Hlt) as [_ Hall]. unfold ids in Hall.
  destruct (create_accepted now b s Ht) as (v & _ & ->).
  eexists. split; [reflexivity |]. cbn [snd id].
  set (t := {| id := nextId s; title := v; description := _;
               completed := _; createdAt := now; updatedAt := None |}).
  rewrite (delete_found _ _ (length (tasks s)) t).
  - cbn [tasks nextId].
    rewrite (delete_middle (tasks s) [] t), app_nil_r.
    rewrite js_incr_below by lia. reflexivity.
  - cbn [parseInt_param tasks]. unfold max_counter in *.
    rewrite parseInt_decimal by lia.
    apply (findIndex_fresh_last (tasks s) t).
    rewrite Forall_fmap in Hall. eapply Forall_impl; [exact Hall |].
    simpl. intros y Hy. lia.
Qed.

Lemma create_then_delete_restores_witness :
  exists t,
    fst (create "2024-05-01T10:00:00.000Z" milk sample_store)
    = ok_task 201 (Some msg_created) t
    /\ delete_task (Some (decimal (id t)))
         (snd (create "2024-05-01T10:00:00.000Z" milk sample_store))
       = (ok_task 200 (Some msg_deleted) t,
          {| tasks := tasks sample_store;
             nextId := nextId sample_store + 1 |}).
Proof.
  destruct (create_then_delete_restores "2024-05-01T09:00:00.000Z"
           [Create "2024-05-01T09:10:00.000Z" (only_title (JStr "a"));
            Create "2024-05-01T09:20:00.000Z" (only_title (JStr "b"));
            Create "2024-05-01T09:30:00.000Z" milk;
            Create "2024-05-01T09:40:00.000Z" (only_title (JStr "c"));
            Delete (Some (str "2")); Delete (Some (str "3"));
            Delete (Some (str "5"))]
           "2024-05-01T10:00:00.000Z" milk)
    as (t & Hcreate & Hdelete & _).
  - vm_compute. reflexivity.
  - reflexivity.
  - exists t. split; [exact Hcreate | exact Hdelete].
Defined.

(** ** A run of creates, then a list *)

Lemma run_creates (cs : list (string * body)) :
  forall s,
    Forall (fun c => field_truthy (body_title (snd c)) = true) cs ->
    exists new,
      tasks (run (creates cs) s) = tasks s ++ new
      /\ createdAt <$> new = fst <$> cs
      /\ Some <$> (title <$> new) = (fun c => body_title (snd c)) <$> cs
      /\ (0 <= nextId s ->
          nextId s + Z.of_nat (length cs) <= max_counter ->
          id <$> new = seqZ (nextId s) (Z.of_nat (length cs))
          /\ nextId (run (creates cs) s) = nextId s + Z.of_nat (length cs)).
Proof.
  induction cs as [| [now b] cs IH]; intros s Hcs.
  - exists []. rewrite app_nil_r. repeat split; simpl; lia.
  - apply Forall_cons in Hcs. destruct Hcs as [Hc Hcs]. simpl in Hc.
    change (run (creates ((now, b) :: cs)) s)
      with (run (creates cs) (snd (create now b s))).
    destruct (IH (snd (create now b s)) Hcs)
      as (new & Htasks & Hclock & Htitle & Hids).
    destruct (create_accepted now b s Hc) as (v & Hv & Hcreate).
    rewrite Hcreate in *. cbn [snd tasks nextId] in *.
    eexists (_ :: new). rewrite Htasks, <- app_assoc.
    split; [reflexivity |]. rewrite !fmap_cons. cbn [createdAt title fst snd].
    split; [rewrite Hclock; reflexivity |].
    split; [rewrite Htitle, Hv; reflexivity |].
    intros Hpos Hroom. cbn [length id] in *.
    rewrite Nat2Z.inj_succ in *.
    assert (js_incr (nextId s) = nextId s + 1) as Hincr
      by (apply js_incr_below; lia).
    rewrite Hincr in Hids |- *.
    destruct Hids as [Hseq Hnext]; [lia | lia |].
    split; [| rewrite Hnext; lia].
    rewrite (seqZ_cons (nextId s)) by lia. rewrite Hseq.
    f_equal. f_equal; lia.
Qed.

(** X1.  After a run of creates that all have a truthy title, the array is
    the array before followed by one new record per create, in the order of
    the requests: the records carry the clocks and the titles of the
    requests, in that order, and (while the counter has room below 2^53)
    consecutive ids starting at the counter.  A list request then returns
    exactly this array, with [total] equal to the number of tasks before plus
    the number of creates. *)
Theorem creates_then_list (cs : list (string * body)) (s : state) :
  Forall (fun c => field_truthy (body_title (snd c)) = true) cs ->
  exists new,
    tasks (run (creates cs) s) = tasks s ++ new
    /\ length new = length cs
    /\ createdAt <$> new = fst <$> cs
    /\ Some <$> (title <$> new) = (fun c => body_title (snd c)) <$> cs
    /\ (0 <= nextId s ->
        nextId s + Z.of_nat (length cs) <= max_counter ->
        id <$> new = seqZ (nextId s) (Z.of_nat (length cs)))
    /\ list_all (run (creates cs) s)
       = ({| status := 200; success := true; message := None;
             data := AllTasks (tasks s ++ new);
             total := Some (length (tasks s) + length cs)%nat |},
          run (creates cs) s).
Proof.
  intros Hcs.
  destruct (run_creates cs s Hcs) as (new & Htasks & Hclock & Htitle & Hids).
  assert (length new = length cs) as Hlen.
  { apply (f_equal length) in Hclock. rewrite !length_fmap in Hclock.
    exact Hclock. }
  exists new. split; [exact Htasks |]. split; [exact Hlen |].
  split; [exact Hclock |]. split; [exact Htitle |].
  split; [intros Hpos Hroom; apply Hids; assumption |].
  unfold list_all. rewrite Htasks, length_app, Hlen. reflexivity.
Qed.

Lemma creates_then_list_witness :
  total (fst (list_all
                (run (creates [("2024-05-01T10:00:00.000Z", milk);
                               ("2024-05-01T10:05:00.000Z",
                                only_title (JStr "Walk"))])
                   (initial "2024-05-01T09:00:00.000Z"))))
  = Some 3%nat.
Proof.
  destruct (creates_then_list
              [("2024-05-01T10:00:00.000Z", milk);
               ("2024-05-01T10:05:00.000Z", only_title (JStr "Walk"))]
              (initial "2024-05-01T09:00:00.000Z"))
    as (new & _ & _ & _ & _ & _ & Hlist).
  - repeat constructor.
  - rewrite Hlist. reflexivity.
Defined.

(** ** What a path parameter may contain besides the id *)

Lemma trim_start_white (ws rest : jsstring) :
  Forall (fun c => is_white_space c = true) ws ->
  trim_start (ws ++ rest) = trim_start rest.
Proof.
  induction 1 as [| c ws Hc _ IH]; [reflexivity |].
  simpl. rewrite Hc. exact IH.
Qed.

Lemma leading_digits_tail (ds : list Z) (junk : jsstring) :
  Forall (fun d => 0 <= d < 10) ds -> ignored_tail junk ->
  leading_digits 10 ((digit_char <$> ds) ++ junk) = ds.
Proof.
  intros Hds Hjunk. induction Hds as [| d ds Hd _ IH].
  - destruct junk as [| c junk]; [reflexivity |].
    simpl in *. unfold is_decimal_digit in Hjunk.
    destruct (digit_value 10 c); [discriminate | reflexivity].
  - rewrite fmap_cons. simpl. rewrite digit_char_value by exact Hd.
    rewrite IH. reflexivity.
Qed.

Lemma decimal_digits_head (fuel : nat) :
  forall n, 1 <= n < 2 ^ Z.of_nat fuel -> fuel <> O ->
    exists d rest, decimal_digits fuel n [] = d :: rest /\ 1 <= d.
Proof.
  induction fuel as [| fuel IH]; intros n Hn Hfuel; [congruence |].
  simpl decimal_digits. destruct (Z.ltb_spec n 10) as [Hlt | Hge].
  - exists n, []. split; [reflexivity | lia].
  - rewrite decimal_digits_acc.
    assert (1 <= n / 10 < 2 ^ Z.of_nat fuel) as Hq.
    { rewrite Nat2Z.inj_succ, Z.pow_succ_r in Hn by lia.
      split; [apply Z.div_le_lower_bound; lia |].
      apply Z.div_lt_upper_bound; lia. }
    assert (fuel <> O) as Hfuel' by (intros ->; simpl in Hq; lia).
    destruct (IH _ Hq Hfuel') as (d & rest & -> & Hd).
    exists d, (rest ++ [n mod 10]). split; [reflexivity | exact Hd].
Qed.

(** A printed id is read back whatever white space comes before it and
    whatever non-digit text comes after it. *)
Lemma parseInt_padded (ws junk : jsstring) (n : Z) :
  1 <= n <= 2 ^ 53 ->
  Forall (fun c => is_white_space c = true) ws ->
  ignored_tail junk ->
  parseInt (ws ++ decimal n ++ junk) = JFin n.
Proof.
  intros Hn Hws Hjunk. unfold decimal.
  assert (1 <= n < 2 ^ Z.of_nat (S (Z.to_nat (Z.log2 n)))) as Hfuel.
  { rewrite Nat2Z.inj_succ, Z2Nat.id by apply Z.log2_nonneg.
    split; [lia |]. apply Z.log2_spec. lia. }
  assert (0 <= n < 2 ^ Z.of_nat (S (Z.to_nat (Z.log2 n)))) as Hfuel0 by lia.
  destruct (decimal_digits_spec _ n Hfuel0 ltac:(discriminate))
    as (Hv & Hd & _).
  destruct (decimal_digits_head _ n Hfuel ltac:(discriminate))
    as (d0 & rest & Heq & Hd0).
  pose proof (leading_digits_tail _ junk Hd Hjunk) as Hlead.
  rewrite Heq in *. apply Forall_cons in Hd. destruct Hd as [Hd0' _].
  destruct (digit_char_plain d0 Hd0') as (Hwhite & Hminus & Hplus & _).
  assert (N.eqb (digit_char d0) 48 = false) as Hzero.
  { apply N.eqb_neq. unfold digit_char. intros Heq0.
    apply (f_equal Z.of_N) in Heq0. rewrite Z2N.id in Heq0 by lia.
    simpl in Heq0. lia. }
  unfold parseInt. rewrite trim_start_white by exact Hws.
  rewrite fmap_cons in *. cbn [app trim_start]. rewrite Hwhite.
  unfold strip_sign. rewrite Hminus, Hplus.
  assert (strip_radix (digit_char d0 :: (digit_char <$> rest) ++ junk)
          = (10, digit_char d0 :: (digit_char <$> rest) ++ junk)) as ->.
  { unfold strip_radix. destruct ((digit_char <$> rest) ++ junk);
      [reflexivity |]. rewrite Hzero. reflexivity. }
  cbn [app] in Hlead. rewrite Hlead, Hv. apply to_number_exact. lia.
Qed.

Lemma handlers_same_number (now : string) (p q : param) (b : body) (s : state) :
  parseInt_param p = parseInt_param q ->
  get_by_id p s = get_by_id q s
  /\ update now p b s = update now q b s
  /\ delete_task p s = delete_task q s.
Proof.
  intros H. unfold get_by_id, update, delete_task. rewrite H. tauto.
Qed.

(** X12.  Only the leading number of a path parameter counts.  For an id
    between 1 and 2^53, white space before its digits and any text after them
    that does not start with a digit are ignored: get, update and delete
    answer and act exactly as they do for the bare id.  So [/api/tasks/7abc],
    [/api/tasks/7.9] and [/api/tasks/%207] all address task 7. *)
Theorem path_parameter_padding_ignored
    (now : string) (ws junk : jsstring) (n : Z) (b : body) (s : state) :
  1 <= n <= max_counter ->
  Forall (fun c => is_white_space c = true) ws ->
  ignored_tail junk ->
  get_by_id (Some (ws ++ decimal n ++ junk)) s
  = get_by_id (Some (decimal n)) s
  /\ update now (Some (ws ++ decimal n ++ junk)) b s
     = update now (Some (decimal n)) b s
  /\ delete_task (Some (ws ++ decimal n ++ junk)) s
     = delete_task (Some (decimal n)) s.
Proof.
  intros Hn Hws Hjunk. apply handlers_same_number. cbn [parseInt_param].
  unfold max_counter in Hn.
  rewrite parseInt_padded by assumption.
  rewrite parseInt_decimal by lia. reflexivity.
Qed.

Lemma path_parameter_padding_ignored_witness :
  get_by_id (Some (str " " ++ decimal 4 ++ str ".9abc")) sample_store
  = get_by_id (Some (decimal 4)) sample_store.
Proof.
  destruct (path_parameter_padding_ignored "2024-05-01T10:00:00.000Z"
              (str " ") (str ".9abc") 4 mark_done sample_store)
    as (Hget & _).
  - unfold max_counter. lia.
  - repeat constructor.
  - reflexivity.
  - exact Hget.
Defined.

(** ** Where the timestamps come from *)

Lemma handle_task_origin (r : request) (s : state) (t : task) :
  t ∈ tasks (snd (handle r s)) ->
  t ∈ tasks s
  \/ (exists now b, r = Create now b /\ createdAt t = now
                    /\ updatedAt t = None)
  \/ (exists now p b old, r = Update now p b /\ old ∈ tasks s
                          /\ t = merge now b old).
Proof.
  destruct r as [now b | | p | now p b | p]; cbn [handle].
  - destruct (field_truthy (body_title b)) eqn:Ht.
    + destruct (create_accepted now b s Ht) as (v & _ & ->). cbn [snd tasks].
      intros [Hin | Hin%list_elem_of_singleton]%elem_of_app; [left; exact Hin |].
      right. left. exists now, b. subst t. repeat split.
    + rewrite create_rejected by exact Ht. intros Hin. left. exact Hin.
  - intros Hin. left. exact Hin.
  - rewrite get_by_id_state. intros Hin. left. exact Hin.
  - destruct (findIndex (parseInt_param p) (tasks s)) as [[i old] |] eqn:E.
    + rewrite (update_found _ _ _ _ _ _ E). cbn [snd tasks].
      pose proof E as (Hi & _)%findIndex_Some.
      intros [j Hj]%list_elem_of_lookup.
      destruct (Nat.eq_dec i j) as [<- | Hne].
      * rewrite list_lookup_insert_eq in Hj by (eapply lookup_lt_Some; eauto).
        injection Hj as <-. right. right. exists now, p, b, old.
        split; [reflexivity |]. split; [| reflexivity].
        apply list_elem_of_lookup. eauto.
      * rewrite list_lookup_insert_ne in Hj by exact Hne.
        left. apply list_elem_of_lookup. eauto.
    + rewrite update_missing by exact E. intros Hin. left. exact Hin.
  - destruct (findIndex (parseInt_param p) (tasks s)) as [[i t'] |] eqn:E.
    + rewrite (delete_found _ _ _ _ E). cbn [snd tasks].
      intros Hin%list_elem_of_delete_inv. left. exact Hin.
    + rewrite delete_missing by exact E. intros Hin. left. exact Hin.
Qed.

(** X14.  Timestamps are never made up and never copied from a body.  In
    every state the service reaches, the [createdAt] of a stored task is the
    boot clock (for the seeded task) or the clock of a create request of the
    run, and its [updatedAt], when it has one, is the clock of an update
    request of the run.  In particular, after a run without update requests
    no task has an [updatedAt]. *)
Theorem timestamps_come_from_requests
    (boot : string) (rs : list request) (t : task) :
  t ∈ tasks (run rs (initial boot)) ->
  (createdAt t = boot \/ createdAt t ∈ create_clocks rs)
  /\ (forall u, updatedAt t = Some u -> u ∈ update_clocks rs)
  /\ (update_clocks rs = [] -> updatedAt t = None).
Proof.
  intros Hin.
  assert ((createdAt t = boot \/ createdAt t ∈ create_clocks rs)
          /\ (forall u, updatedAt t = Some u -> u ∈ update_clocks rs))
    as [Hc Hu].
  { revert t Hin. induction rs as [| r rs IH] using rev_ind; intros t Hin.
    - simpl in Hin. apply list_elem_of_singleton in Hin. subst t.
      split; [left; reflexivity | discriminate].
    - rewrite run_app in Hin. cbn [run fold_left] in Hin.
      unfold create_clocks, update_clocks. rewrite !bind_app.
      fold (create_clocks rs) (update_clocks rs).
      destruct (handle_task_origin _ _ _ Hin)
        as [Hold | [(now & b & -> & Hnow & Hnone)
                   | (now & p & b & old & -> & Hold & ->)]].
      + destruct (IH _ Hold) as [Hc Hu]. split.
        * destruct Hc as [Hc | Hc]; [left; exact Hc |].
          right. apply elem_of_app. left. exact Hc.
        * intros u Hu'. apply elem_of_app. left. apply Hu. exact Hu'.
      + split.
        * right. apply elem_of_app. right. rewrite Hnow.
          apply list_elem_of_here.
        * rewrite Hnone. discriminate.
      + destruct (IH _ Hold) as [Hc _]. split.
        * cbn [merge createdAt]. destruct Hc as [Hc | Hc]; [left; exact Hc |].
          right. apply elem_of_app. left. exact Hc.
        * cbn [merge updatedAt]. intros u [= <-].
          apply elem_of_app. right. apply list_elem_of_here. }
  split; [exact Hc |]. split; [exact Hu |].
  intros Hnone. destruct (updatedAt t) as [u |] eqn:Hupd; [| reflexivity].
  specialize (Hu u eq_refl). rewrite Hnone in Hu.
  apply elem_of_nil in Hu. destruct Hu.
Qed.

Lemma timestamps_come_from_requests_witness :
  Forall (fun t => updatedAt t = None) (tasks sample_store).
Proof.
  apply Forall_forall. intros t Hin.
  destruct (timestamps_come_from_requests "2024-05-01T09:00:00.000Z"
              [Create "2024-05-01T09:10:00.000Z" (only_title (JStr "a"));
               Create "2024-05-01T09:20:00.000Z" (only_title (JStr "b"));
               Create "2024-05-01T09:30:00.000Z" milk;
               Create "2024-05-01T09:40:00.000Z" (only_title (JStr "c"));
               Delete (Some (str "2")); Delete (Some (str "3"));
               Delete (Some (str "5"))] t Hin) as (_ & _ & Hnone).
  apply Hnone. reflexivity.
Defined.
